(** * The autoencoder application of NiftyNet: mode dispatch

    A shallow embedding of
    [niftynet/application/autoencoder_application.py]: the class
    [AutoencoderApplication] with its five life-cycle methods
    ([initialise_dataset_loader], [initialise_sampler],
    [initialise_network], [connect_data_and_network],
    [interpret_output]).

    The methods mutate [self] and the objects they are handed (readers,
    collectors) and may raise; they are embedded in a state-and-exception
    monad over a [World] that holds the application object, the store of
    reader objects it allocated, the two collector objects of the engine
    and the trace of calls made to the collaborators (network, sampler,
    TensorFlow, aggregator).  TensorFlow tensors are graph nodes, hence
    symbolic terms, with fully defined static shapes; the floats of the
    configuration are IEEE doubles; batch, window and interpolation counts
    are natural numbers. *)

From Stdlib Require Import ZArith String Ascii.
From Stdlib Require Import Floats.PrimFloat.
From stdpp Require Import gmap strings list.

Set Warnings "-register-all".

Local Open Scope string_scope.
Local Open Scope list_scope.

(** ** Exceptions *)

Inductive exn : Type :=
| ConfigurationError (type_str : string)
| ShapeMismatchError (have want : list nat)
| AttributeError (attr : string)
| IndexError
| KeyError (key : string)
| TypeError
| NotImplementedError.

(** ** Module constants *)

Definition SUPPORTED_INPUT : gset string := {[ "image"; "feature" ]}.
Definition SUPPORTED_INFERENCE : gset string :=
  {[ "encode"; "encode-decode"; "sample"; "linear_interpolation" ]}.

(** Modelled from the spec: [look_up_operations] of
    [niftynet.utilities.util_common] is not among the sources.  The spec has
    it as "an exact-match lookup against the supported-mode set" that fails
    with a configuration error on an unsupported value; on a supported value
    the callers use what it returns as the inference type. *)
Definition look_up_operations (type_str : string) (supported : gset string)
  : exn + string :=
  if decide (type_str ∈ supported) then inr type_str
  else inl (ConfigurationError type_str).

(** ** Python values and their operators *)

(** [x in (s1, ..., sn)] and [x == s] for [x] that is [None] or a [str]. *)
Definition py_in (x : option string) (t : list string) : bool :=
  match x with
  | Some s => existsb (String.eqb s) t
  | None => false
  end.

Definition py_eq (x : option string) (s : string) : bool :=
  match x with
  | Some s' => String.eqb s' s
  | None => false
  end.

(** [str.lower] on the ASCII letters. *)
Definition lower_ascii (c : ascii) : ascii :=
  let n := nat_of_ascii c in
  if (65 <=? n)%nat && (n <=? 90)%nat then ascii_of_nat (n + 32) else c.

Fixpoint lower (s : string) : string :=
  match s with
  | EmptyString => EmptyString
  | String c s' => String (lower_ascii c) (lower s')
  end.

(** The flip-axes option is the integer [-1] by default, or a tuple of
    axes. *)
Inductive FlipAxes : Type :=
| AxisInt (a : Z)
| AxisTuple (axes : list Z).

(** [random_flipping_axes != -1] *)
Definition flip_axes_ne_minus_one (a : FlipAxes) : bool :=
  match a with
  | AxisInt z => negb (z =? -1)%Z
  | AxisTuple _ => true
  end.

(** ** Configuration objects *)

Record NetParam : Type := {
  batch_size : nat;
  reg_type : string;
  decay : float;
  name : string }.

Record ActionParam : Type := {
  random_flipping_axes : FlipAxes;
  scaling_percentage : list float;
  rotation_angle : list float;
  lr : float;
  loss_type : string;
  spatial_window_size : list nat;
  save_seg_dir : string }.

Record TaskParam : Type := {
  inference_type : string;
  n_interpolations : nat;
  noise_stddev : float }.

(** ** Tensors: nodes of the TensorFlow graph *)

Inductive dtype : Type := float32.

Inductive Tensor : Type :=
| Produced (origin : string) (shape : list nat)
| Zeros (shape : list nat)
| Cast (x : Tensor) (dt : dtype)
| RandomNormal (shape : list nat) (mean stddev : float) (dt : dtype)
| Reshape (x : Tensor) (shape : list nat)
| ReduceMean (x : Tensor)
| Stack (xs : list Tensor)
| Add (x y : Tensor).

(** The scalar broadcasts; otherwise the left shape is kept (the only sum
    of the application adds a scalar). *)
Definition broadcast (a b : list nat) : list nat :=
  match a with
  | [] => b
  | _ => a
  end.

Fixpoint get_shape (t : Tensor) : list nat :=
  match t with
  | Produced _ s => s
  | Zeros s => s
  | Cast x _ => get_shape x
  | RandomNormal s _ _ _ => s
  | Reshape _ s => s
  | ReduceMean _ => []
  | Stack xs =>
      length xs :: match xs with
                   | [] => []
                   | x :: _ => get_shape x
                   end
  | Add x y => broadcast (get_shape x) (get_shape y)
  end.

Definition num_elements (shape : list nat) : nat :=
  foldr Nat.mul 1%nat shape.

(** Modelled from the spec: [tf.reshape] is TensorFlow's and not among
    the sources.  The spec has the reshape of the feature batch to the
    latent shape fail with a shape-mismatch error when the element counts
    disagree; shapes are the fully defined static shapes of the graph. *)
Definition tf_reshape (x : Tensor) (shape : list nat) : exn + Tensor :=
  if (num_elements (get_shape x) =? num_elements shape)%nat
  then inr (Reshape x shape)
  else inl (ShapeMismatchError (get_shape x) shape).

(** [tf.reduce_mean] of a Python list packs the list first. *)
Definition tf_reduce_mean_list (xs : list Tensor) : Tensor :=
  ReduceMean (Stack xs).

(** ** Arrays fetched from a session run *)

Inductive Scalar : Type :=
| SInt (z : Z)
| SFloat (f : float).

Inductive NdArray : Type :=
| Item (x : Scalar)
| Arr (xs : list NdArray).

(** [a[:, 0:k]]: every row cut to its first [k] entries; an array of fewer
    than two dimensions has too many indices. *)
Definition row_prefix (k : nat) (row : NdArray) : exn + NdArray :=
  match row with
  | Arr cols => inr (Arr (take k cols))
  | Item _ => inl IndexError
  end.

Fixpoint rows_prefix (k : nat) (rows : list NdArray) : exn + list NdArray :=
  match rows with
  | [] => inr []
  | r :: rest =>
      match row_prefix k r with
      | inl e => inl e
      | inr r' =>
          match rows_prefix k rest with
          | inl e => inl e
          | inr rest' => inr (r' :: rest')
          end
      end
  end.

Definition slice_columns (k : nat) (a : NdArray) : exn + NdArray :=
  match a with
  | Arr rows =>
      match rows_prefix k rows with
      | inl e => inl e
      | inr rows' => inr (Arr rows')
      end
  | Item _ => inl IndexError
  end.

(** ** Collaborator objects *)

Inductive Layer : Type :=
| RandomFlipLayer (flip_axes : FlipAxes)
| RandomSpatialScalingLayer (min_percentage max_percentage : float)
| RandomRotationLayer (min_angle max_angle : float).

(** What [self.reader] may hold: [None], the empty tuple [()], or a
    reference to a reader object in the store. *)
Inductive PyReader : Type :=
| PyNone
| PyEmptyTuple
| ReaderRef (addr : nat).

(** Truth value in [if self.reader:]: a reader object is true, [None] and
    [()] are false. *)
Definition truthy (r : PyReader) : bool :=
  match r with
  | ReaderRef _ => true
  | PyNone | PyEmptyTuple => false
  end.

Inductive Regularizer : Type :=
| l2_regularizer (scale : float)
| l1_regularizer (scale : float).

(** The network object made by [ApplicationNetFactory.create(name)(...)]. *)
Record Network : Type := {
  net_name : string;
  w_regularizer : option Regularizer;
  b_regularizer : option Regularizer }.

Inductive Optimiser : Type :=
| AdamOptimizer (learning_rate : float).

(** The value of [optimiser.compute_gradients(loss)]. *)
Inductive Grads : Type :=
| compute_gradients (opt : Optimiser) (loss : Tensor).

Inductive Aggregator : Type :=
| WindowAsImageAggregator (image_reader : PyReader) (output_path : string).

Inductive Collection : Type := CONSOLE | TF_SUMMARIES.

(** One [outputs_collector.add_to_collection(...)] call; [summary_type] is
    [None] where the call does not pass it. *)
Record Binding : Type := {
  var : Tensor;
  var_name : string;
  average_over_devices : bool;
  summary_type : option string;
  collection : Collection }.

Record GradientsCollector : Type := {
  current_tower_id : nat;
  gradients : list (list Grads) }.

Section Application.

(** The data configuration is passed through untouched. *)
Context {DataParam : Type}.

Inductive ReaderCall : Type :=
| initialise_reader (data_param : option DataParam)
                    (task_param : option TaskParam)
| add_preprocessing_layers (layers : list Layer).

(** A reader object: the channel names it was built with and the method
    calls it received, oldest first. *)
Record ImageReader : Type := {
  names : list string;
  calls : list ReaderCall }.

Inductive Sampler : Type :=
| ResizeSampler (reader : PyReader) (data_param : option DataParam)
                (batch_size : nat) (windows_per_image : nat)
                (shuffle_buffer : bool)
| LinearInterpolateSampler (reader : PyReader)
                           (data_param : option DataParam)
                           (batch_size : nat) (n_interpolations : nat).

(** Calls to the collaborators made while the graph is built and while
    batches are decoded. *)
Inductive Event : Type :=
| CallNet (input : Tensor) (training : bool)
| CallPopBatch (s : Sampler) (device_id : option nat)
| CallRandomNormal (shape : list nat) (stddev : float)
| CallReshape (x : Tensor) (shape : list nat)
| CallSharedDecoder (x : Tensor)
| CallDecoderMeans (x : Tensor)
| CallDecodeBatch (agg : Aggregator) (artifact : NdArray)
                  (location : option NdArray).

(** The application object.  An attribute that [__init__] does not set
    ([_infer_type]) is [None] until its first assignment; [sampler], [net],
    [optimiser] and [output_decoder] likewise. *)
Record App : Type := {
  is_training : bool;
  net_param : NetParam;
  action_param : ActionParam;
  data_param : option DataParam;
  autoencoder_param : option TaskParam;
  _infer_type : option (option string);
  reader : PyReader;
  sampler : option (list Sampler);
  net : option Network;
  optimiser : option Optimiser;
  output_decoder : option Aggregator }.

Record World : Type := {
  self : App;
  heap : list ImageReader;
  outputs_collector : option (list Binding);
  gradients_collector : option GradientsCollector;
  trace : list Event }.

(** ** The monad of methods: state and exceptions *)

Definition M (A : Type) : Type := World -> (exn + A) * World.

Definition ret {A : Type} (a : A) : M A := fun w => (inr a, w).

Definition bind {A B : Type} (m : M A) (f : A -> M B) : M B :=
  fun w =>
    match m w with
    | (inr a, w') => f a w'
    | (inl e, w') => (inl e, w')
    end.

Notation "'let*' x ':=' m 'in' k" := (bind m (fun x => k))
  (at level 10, x name, m at level 100, k at level 200).

Definition raise {A : Type} (e : exn) : M A := fun w => (inl e, w).

Definition lift {A : Type} (r : exn + A) : M A := fun w => (r, w).

Definition gets {A : Type} (f : App -> A) : M A :=
  fun w => (inr (f (self w)), w).

Definition modify_self (f : App -> App) : M unit :=
  fun w => (inr tt, {| self := f (self w); heap := heap w;
                       outputs_collector := outputs_collector w;
                       gradients_collector := gradients_collector w;
                       trace := trace w |}).

Definition emit (e : Event) : M unit :=
  fun w => (inr tt, {| self := self w; heap := heap w;
                       outputs_collector := outputs_collector w;
                       gradients_collector := gradients_collector w;
                       trace := trace w ++ [e] |}).

(** Reading an attribute or item that may be absent. *)
Definition attr {A : Type} (attr_name : string) (o : option A) : M A :=
  match o with
  | Some a => ret a
  | None => raise (AttributeError attr_name)
  end.

Definition item {A : Type} (l : list A) (i : nat) : M A :=
  match l !! i with
  | Some a => ret a
  | None => raise IndexError
  end.

(** [l[-1]] *)
Definition last_item {A : Type} (l : list A) : M A :=
  match last l with
  | Some a => ret a
  | None => raise IndexError
  end.

Definition dict_item {A : Type} (d : gmap string A) (k : string) : M A :=
  match d !! k with
  | Some a => ret a
  | None => raise (KeyError k)
  end.

(** Assignments to the attributes of [self]. *)
Definition set_data_param (v : option DataParam) (a : App) : App :=
  {| is_training := is_training a; net_param := net_param a;
     action_param := action_param a; data_param := v;
     autoencoder_param := autoencoder_param a;
     _infer_type := _infer_type a; reader := reader a;
     sampler := sampler a; net := net a; optimiser := optimiser a;
     output_decoder := output_decoder a |}.

Definition set_autoencoder_param (v : option TaskParam) (a : App) : App :=
  {| is_training := is_training a; net_param := net_param a;
     action_param := action_param a; data_param := data_param a;
     autoencoder_param := v;
     _infer_type := _infer_type a; reader := reader a;
     sampler := sampler a; net := net a; optimiser := optimiser a;
     output_decoder := output_decoder a |}.

Definition set_infer_type (v : option string) (a : App) : App :=
  {| is_training := is_training a; net_param := net_param a;
     action_param := action_param a; data_param := data_param a;
     autoencoder_param := autoencoder_param a;
     _infer_type := Some v; reader := reader a;
     sampler := sampler a; net := net a; optimiser := optimiser a;
     output_decoder := output_decoder a |}.

Definition set_reader (v : PyReader) (a : App) : App :=
  {| is_training := is_training a; net_param := net_param a;
     action_param := action_param a; data_param := data_param a;
     autoencoder_param := autoencoder_param a;
     _infer_type := _infer_type a; reader := v;
     sampler := sampler a; net := net a; optimiser := optimiser a;
     output_decoder := output_decoder a |}.

Definition set_sampler (v : list Sampler) (a : App) : App :=
  {| is_training := is_training a; net_param := net_param a;
     action_param := action_param a; data_param := data_param a;
     autoencoder_param := autoencoder_param a;
     _infer_type := _infer_type a; reader := reader a;
     sampler := Some v; net := net a; optimiser := optimiser a;
     output_decoder := output_decoder a |}.

Definition set_net (v : Network) (a : App) : App :=
  {| is_training := is_training a; net_param := net_param a;
     action_param := action_param a; data_param := data_param a;
     autoencoder_param := autoencoder_param a;
     _infer_type := _infer_type a; reader := reader a;
     sampler := sampler a; net := Some v; optimiser := optimiser a;
     output_decoder := output_decoder a |}.

Definition set_optimiser (v : Optimiser) (a : App) : App :=
  {| is_training := is_training a; net_param := net_param a;
     action_param := action_param a; data_param := data_param a;
     autoencoder_param := autoencoder_param a;
     _infer_type := _infer_type a; reader := reader a;
     sampler := sampler a; net := net a; optimiser := Some v;
     output_decoder := output_decoder a |}.

Definition set_output_decoder (v : Aggregator) (a : App) : App :=
  {| is_training := is_training a; net_param := net_param a;
     action_param := action_param a; data_param := data_param a;
     autoencoder_param := autoencoder_param a;
     _infer_type := _infer_type a; reader := reader a;
     sampler := sampler a; net := net a; optimiser := optimiser a;
     output_decoder := Some v |}.

(** ** Reader objects in the store *)

(** [ImageReader(names)]: a fresh object, at the next free address. *)
Definition new_ImageReader (channel_names : list string) : M PyReader :=
  fun w => (inr (ReaderRef (length (heap w))),
            {| self := self w;
               heap := heap w ++ [{| names := channel_names; calls := [] |}];
               outputs_collector := outputs_collector w;
               gradients_collector := gradients_collector w;
               trace := trace w |}).

(** A method call on what [self.reader] holds; the object records it. *)
Definition call_reader (r : PyReader) (c : ReaderCall) : M unit :=
  fun w =>
    match r with
    | ReaderRef addr =>
        match heap w !! addr with
        | Some obj =>
            (inr tt,
             {| self := self w;
                heap := <[addr := {| names := names obj;
                                     calls := calls obj ++ [c] |}]> (heap w);
                outputs_collector := outputs_collector w;
                gradients_collector := gradients_collector w;
                trace := trace w |})
        | None => (inl (AttributeError "reader"), w)
        end
    | PyNone | PyEmptyTuple => (inl (AttributeError "reader"), w)
    end.

(** ** [initialise_dataset_loader] *)

Definition initialise_dataset_loader
    (data_param0 : option DataParam) (task_param : option TaskParam)
  : M unit :=
  let* _ := modify_self (set_data_param data_param0) in
  let* _ := modify_self (set_autoencoder_param task_param) in
  let* training := gets is_training in
  let* _ :=
    (if negb training then
       let* p := gets autoencoder_param in
       let* p := attr "inference_type" p in
       let* t := lift (look_up_operations (inference_type p)
                                          SUPPORTED_INFERENCE) in
       modify_self (set_infer_type (Some t))
     else
       modify_self (set_infer_type None)) in
  let* training := gets is_training in
  let* _ :=
    (if training then
       let* r := new_ImageReader ["image"] in
       modify_self (set_reader r)
     else ret tt) in
  let* it := gets _infer_type in
  let* it := attr "_infer_type" it in
  let* _ :=
    (if py_in it ["encode"; "encode-decode"] then
       let* r := new_ImageReader ["image"] in
       modify_self (set_reader r)
     else if py_eq it "sample" then
       modify_self (set_reader PyEmptyTuple)
     else if py_eq it "linear_interpolation" then
       let* r := new_ImageReader ["feature"] in
       modify_self (set_reader r)
     else ret tt) in
  let* r := gets reader in
  if truthy r then
    let* _ := call_reader r (initialise_reader data_param0 task_param) in
    let augmentation_layers := [] in
    let* training := gets is_training in
    let* augmentation_layers :=
      (if training then
         let* ap := gets action_param in
         let augmentation_layers :=
           if flip_axes_ne_minus_one (random_flipping_axes ap)
           then augmentation_layers ++
                  [RandomFlipLayer (random_flipping_axes ap)]
           else augmentation_layers in
         let* augmentation_layers :=
           (match scaling_percentage ap with
            | _ :: _ =>
                let* lo := item (scaling_percentage ap) 0 in
                let* hi := item (scaling_percentage ap) 1 in
                ret (augmentation_layers ++
                       [RandomSpatialScalingLayer lo hi])
            | [] => ret augmentation_layers
            end) in
         match rotation_angle ap with
         | _ :: _ =>
             let* lo := item (rotation_angle ap) 0 in
             let* hi := item (rotation_angle ap) 1 in
             ret (augmentation_layers ++ [RandomRotationLayer lo hi])
         | [] => ret augmentation_layers
         end
       else ret augmentation_layers) in
    call_reader r (add_preprocessing_layers augmentation_layers)
  else ret tt.


(** ** [initialise_sampler] *)

(** [self.sampler.append(s)] *)
Definition append_sampler (s : Sampler) : M unit :=
  let* l := gets sampler in
  let* l := attr "sampler" l in
  modify_self (set_sampler (l ++ [s])).

Definition initialise_sampler : M unit :=
  let* _ := modify_self (set_sampler []) in
  let* training := gets is_training in
  if training then
    let* r := gets reader in
    let* dp := gets data_param in
    let* np := gets net_param in
    append_sampler (ResizeSampler r dp (batch_size np) 1 true)
  else
    let* it := gets _infer_type in
    let* it := attr "_infer_type" it in
    if py_in it ["encode"; "encode-decode"] then
      let* r := gets reader in
      let* dp := gets data_param in
      let* np := gets net_param in
      append_sampler (ResizeSampler r dp (batch_size np) 1 false)
    else if py_eq it "linear_interpolation" then
      let* r := gets reader in
      let* dp := gets data_param in
      let* np := gets net_param in
      let* p := gets autoencoder_param in
      let* p := attr "n_interpolations" p in
      append_sampler
        (LinearInterpolateSampler r dp (batch_size np) (n_interpolations p))
    else ret tt.

(** ** [initialise_network] *)

Definition initialise_network : M unit :=
  let w_regularizer := None in
  let b_regularizer := None in
  let* np := gets net_param in
  let reg_type := lower (reg_type np) in
  let decay := decay np in
  let '(w_regularizer, b_regularizer) :=
    if String.eqb reg_type "l2" && (0 <? decay)%float then
      (Some (l2_regularizer decay), Some (l2_regularizer decay))
    else if String.eqb reg_type "l1" && (0 <? decay)%float then
      (Some (l1_regularizer decay), Some (l1_regularizer decay))
    else (w_regularizer, b_regularizer) in
  modify_self (set_net {| net_name := name np;
                          w_regularizer := w_regularizer;
                          b_regularizer := b_regularizer |}).

(** ** The collaborators of the graph-building step

    The network, the samplers, the loss layer and the aggregator are
    outside the application: they are taken as they come, as an interface
    the application is generic in.
    [regularization_losses] is what
    [tf.get_collection(tf.GraphKeys.REGULARIZATION_LOSSES)] returns when
    the training graph is built. *)

Class Collaborators : Type := {
  net_call : Network -> Tensor -> bool -> list Tensor;
  shared_decoder : Network -> Tensor -> bool -> Tensor;
  decoder_means : Network -> Tensor -> bool -> Tensor;
  pop_batch_op : Sampler -> option nat -> gmap string Tensor;
  LossFunction : string -> list Tensor -> Tensor;
  regularization_losses : list Tensor;
  decode_batch : Aggregator -> NdArray -> option NdArray -> bool }.

Context {collaborators : Collaborators}.

(** Modelled from the spec: [BaseApplication.get_sampler] is not among
    the sources; the spec has the sampler set up by [initialise_sampler]
    produce the batches, so the getter hands out [self.sampler]. *)
Definition get_sampler : M (list Sampler) :=
  let* l := gets sampler in
  attr "sampler" l.

(** [self.net(x, is_training=b)]; calling [None] is a [TypeError]. *)
Definition call_net (x : Tensor) (b : bool) : M (list Tensor) :=
  let* n := gets net in
  match n with
  | Some n =>
      let* _ := emit (CallNet x b) in
      ret (net_call n x b)
  | None => raise TypeError
  end.

Definition call_shared_decoder (x : Tensor) (b : bool) : M Tensor :=
  let* n := gets net in
  let* n := attr "shared_decoder" n in
  let* _ := emit (CallSharedDecoder x) in
  ret (shared_decoder n x b).

Definition call_decoder_means (x : Tensor) (b : bool) : M Tensor :=
  let* n := gets net in
  let* n := attr "decoder_means" n in
  let* _ := emit (CallDecoderMeans x) in
  ret (decoder_means n x b).

Definition call_pop_batch_op (s : Sampler) (device_id : option nat)
  : M (gmap string Tensor) :=
  let* _ := emit (CallPopBatch s device_id) in
  ret (pop_batch_op s device_id).

Definition call_random_normal (shape : list nat) (mean stddev : float)
                              (dt : dtype) : M Tensor :=
  let* _ := emit (CallRandomNormal shape stddev) in
  ret (RandomNormal shape mean stddev dt).

Definition call_reshape (x : Tensor) (shape : list nat) : M Tensor :=
  let* _ := emit (CallReshape x shape) in
  lift (tf_reshape x shape).

(** [outputs_collector.add_to_collection(...)] *)
Definition add_output (b : Binding) : M unit :=
  fun w =>
    match outputs_collector w with
    | Some l =>
        (inr tt, {| self := self w; heap := heap w;
                    outputs_collector := Some (l ++ [b]);
                    gradients_collector := gradients_collector w;
                    trace := trace w |})
    | None => (inl (AttributeError "add_to_collection"), w)
    end.

(** [gradients_collector.current_tower_id] *)
Definition tower_id : M nat :=
  fun w =>
    match gradients_collector w with
    | Some g => (inr (current_tower_id g), w)
    | None => (inl (AttributeError "current_tower_id"), w)
    end.

(** [gradients_collector.add_to_collection(gs)] *)
Definition add_gradients (gs : list Grads) : M unit :=
  fun w =>
    match gradients_collector w with
    | Some g =>
        (inr tt, {| self := self w; heap := heap w;
                    outputs_collector := outputs_collector w;
                    gradients_collector :=
                      Some {| current_tower_id := current_tower_id g;
                              gradients := gradients g ++ [gs] |};
                    trace := trace w |})
    | None => (inl (AttributeError "add_to_collection"), w)
    end.

Definition console (v : Tensor) (n : string) : Binding :=
  {| var := v; var_name := n; average_over_devices := true;
     summary_type := None; collection := CONSOLE |}.

(** ** [connect_data_and_network]

    The two arguments are the collector objects of the world; a collector
    that is [None] there is the default argument of the method. *)

Definition connect_data_and_network : M unit :=
  let* training := gets is_training in
  if training then
    let* ap := gets action_param in
    let* _ := modify_self (set_optimiser (AdamOptimizer (lr ap))) in
    let* device_id := tower_id in
    let* samplers := get_sampler in
    let* s := item samplers 0 in
    let* data_dict := call_pop_batch_op s (Some device_id) in
    let* image := dict_item data_dict "image" in
    let image := Cast image float32 in
    let* net_output := call_net image true in
    let* ap := gets action_param in
    let loss_func := LossFunction (loss_type ap) in
    let data_loss := loss_func net_output in
    let loss := data_loss in
    let* np := gets net_param in
    let loss :=
      if (0 <? decay np)%float then
        let reg_losses := regularization_losses in
        match reg_losses with
        | _ :: _ =>
            let reg_loss :=
              tf_reduce_mean_list (map ReduceMean reg_losses) in
            Add loss reg_loss
        | [] => loss
        end
      else loss in
    let* opt := gets optimiser in
    let* opt := attr "compute_gradients" opt in
    let grads := compute_gradients opt loss in
    let* _ := add_gradients [grads] in
    let* _ := add_output (console data_loss "variational_lower_bound") in
    add_output {| var := data_loss; var_name := "variational_lower_bound";
                  average_over_devices := true;
                  summary_type := Some "scalar";
                  collection := TF_SUMMARIES |}
  else
    let* it := gets _infer_type in
    let* it := attr "_infer_type" it in
    if py_in it ["encode"; "encode-decode"] then
      let* samplers := get_sampler in
      let* s := item samplers 0 in
      let* data_dict := call_pop_batch_op s None in
      let* image := dict_item data_dict "image" in
      let image := Cast image float32 in
      let* net_output := call_net image false in
      let* loc := dict_item data_dict "image_location" in
      let* _ := add_output (console loc "location") in
      let* _ :=
        (if py_eq it "encode-decode" then
           let* o := item net_output 2 in
           add_output (console o "generated_image")
         else ret tt) in
      let* _ :=
        (if py_eq it "encode" then
           let* o := item net_output 7 in
           add_output (console o "embedded")
         else ret tt) in
      let* r := gets reader in
      let* ap := gets action_param in
      modify_self
        (set_output_decoder (WindowAsImageAggregator r (save_seg_dir ap)))
    else if py_eq it "sample" then
      let* np := gets net_param in
      let* ap := gets action_param in
      let image_size :=
        [batch_size np] ++ spatial_window_size ap ++ [1%nat] in
      let dummy_image := Zeros image_size in
      let* net_output := call_net dummy_image false in
      let* latent := last_item net_output in
      let noise_shape := get_shape latent in
      let* p := gets autoencoder_param in
      let* p := attr "noise_stddev" p in
      let stddev := noise_stddev p in
      let* noise := call_random_normal noise_shape 0%float stddev float32 in
      let* partially_decoded_sample := call_shared_decoder noise false in
      let* decoder_output :=
        call_decoder_means partially_decoded_sample false in
      let* _ := add_output (console decoder_output "generated_image") in
      let* ap := gets action_param in
      modify_self
        (set_output_decoder
           (WindowAsImageAggregator PyNone (save_seg_dir ap)))
    else if py_eq it "linear_interpolation" then
      let* np := gets net_param in
      let* ap := gets action_param in
      let image_size :=
        [batch_size np] ++ spatial_window_size ap ++ [1%nat] in
      let dummy_image := Zeros image_size in
      let* net_output := call_net dummy_image false in
      let* samplers := get_sampler in
      let* s := item samplers 0 in
      let* data_dict := call_pop_batch_op s None in
      let* real_code := dict_item data_dict "feature" in
      let* latent := last_item net_output in
      let* real_code := call_reshape real_code (get_shape latent) in
      let* partially_decoded_sample := call_shared_decoder real_code false in
      let* decoder_output :=
        call_decoder_means partially_decoded_sample false in
      let* _ := add_output (console decoder_output "generated_image") in
      let* loc := dict_item data_dict "feature_location" in
      let* _ := add_output (console loc "location") in
      let* r := gets reader in
      let* ap := gets action_param in
      modify_self
        (set_output_decoder (WindowAsImageAggregator r (save_seg_dir ap)))
    else raise NotImplementedError.

(** ** [interpret_output] *)

(** [self.output_decoder.decode_batch(artifact, location)] *)
Definition call_decode_batch (agg : Aggregator) (artifact : NdArray)
                             (location : option NdArray) : M bool :=
  let* _ := emit (CallDecodeBatch agg artifact location) in
  ret (decode_batch agg artifact location).

(** The result is [Some b] for a returned boolean and [None] where the
    method falls off its end. *)
Definition interpret_output (batch_output : gmap string NdArray)
  : M (option bool) :=
  let* training := gets is_training in
  if training then ret (Some true)
  else
    let* p := gets autoencoder_param in
    let* p := attr "inference_type" p in
    let* infer_type :=
      lift (look_up_operations (inference_type p) SUPPORTED_INFERENCE) in
    if String.eqb infer_type "encode" then
      let* agg := gets output_decoder in
      let* agg := attr "decode_batch" agg in
      let* artifact := dict_item batch_output "embedded" in
      let* loc := dict_item batch_output "location" in
      let* loc := lift (slice_columns 1 loc) in
      let* b := call_decode_batch agg artifact (Some loc) in
      ret (Some b)
    else if String.eqb infer_type "encode-decode" then
      let* agg := gets output_decoder in
      let* agg := attr "decode_batch" agg in
      let* artifact := dict_item batch_output "generated_image" in
      let* loc := dict_item batch_output "location" in
      let* loc := lift (slice_columns 1 loc) in
      let* b := call_decode_batch agg artifact (Some loc) in
      ret (Some b)
    else if String.eqb infer_type "sample" then
      let* agg := gets output_decoder in
      let* agg := attr "decode_batch" agg in
      let* artifact := dict_item batch_output "generated_image" in
      let* b := call_decode_batch agg artifact None in
      ret (Some b)
    else if String.eqb infer_type "linear_interpolation" then
      let* agg := gets output_decoder in
      let* agg := attr "decode_batch" agg in
      let* artifact := dict_item batch_output "generated_image" in
      let* loc := dict_item batch_output "location" in
      let* loc := lift (slice_columns 2 loc) in
      let* b := call_decode_batch agg artifact (Some loc) in
      ret (Some b)
    else ret None.


(** * The modes of the specification

    The source has no mode type: an application is in training when
    [is_training] holds, and otherwise in the inference mode named by the
    inference type of its task configuration. *)

Inductive Mode : Type :=
| TRAIN
| ENCODE
| ENCODE_DECODE
| SAMPLE
| INTERPOLATE.

Definition mode_of (training : bool) (task_param : option TaskParam)
  : option Mode :=
  if training then Some TRAIN
  else
    match task_param with
    | None => None
    | Some p =>
        let t := inference_type p in
        if String.eqb t "encode" then Some ENCODE
        else if String.eqb t "encode-decode" then Some ENCODE_DECODE
        else if String.eqb t "sample" then Some SAMPLE
        else if String.eqb t "linear_interpolation" then Some INTERPOLATE
        else None
    end.

(** What [initialise_dataset_loader] leaves in [_infer_type]. *)
Definition infer_type_of (m : Mode) : option string :=
  match m with
  | TRAIN => None
  | ENCODE => Some "encode"
  | ENCODE_DECODE => Some "encode-decode"
  | SAMPLE => Some "sample"
  | INTERPOLATE => Some "linear_interpolation"
  end.

(** An application whose data set loader has been initialised in mode
    [m]. *)
Definition set_up (m : Mode) (a : App) : Prop :=
  mode_of (is_training a) (autoencoder_param a) = Some m /\
  _infer_type a = Some (infer_type_of m).

(** The data channel set of the spec. *)
Definition mode_channels (m : Mode) : list string :=
  match m with
  | TRAIN | ENCODE | ENCODE_DECODE => ["image"]
  | INTERPOLATE => ["feature"]
  | SAMPLE => []
  end.

(** The sampler descriptor of the spec, over the fields of the
    application it is built from. *)
Definition mode_samplers (m : Mode) (a : App) : list Sampler :=
  match m with
  | TRAIN =>
      [ResizeSampler (reader a) (data_param a) (batch_size (net_param a))
                     1 true]
  | ENCODE | ENCODE_DECODE =>
      [ResizeSampler (reader a) (data_param a) (batch_size (net_param a))
                     1 false]
  | INTERPOLATE =>
      match autoencoder_param a with
      | Some p =>
          [LinearInterpolateSampler (reader a) (data_param a)
                                    (batch_size (net_param a))
                                    (n_interpolations p)]
      | None => []
      end
  | SAMPLE => []
  end.

(** The augmentation chain of the spec: flip, then spatial scaling, then
    rotation, each present when its parameter is not the disabling
    value. *)
Definition augmentation_chain (ap : ActionParam) : list Layer :=
  (if flip_axes_ne_minus_one (random_flipping_axes ap)
   then [RandomFlipLayer (random_flipping_axes ap)] else []) ++
  (match scaling_percentage ap with
   | [] => []
   | lo :: rest => [RandomSpatialScalingLayer lo (default lo (head rest))]
   end) ++
  (match rotation_angle ap with
   | [] => []
   | lo :: rest => [RandomRotationLayer lo (default lo (head rest))]
   end).

(** A range option is empty or holds at least its two bounds. *)
Definition is_range (r : list float) : bool :=
  negb (length r =? 1)%nat.

(** The chains bound onto the readers of a store, in store order. *)
Definition chains_of_call (c : ReaderCall) : list (list Layer) :=
  match c with
  | add_preprocessing_layers layers => [layers]
  | initialise_reader _ _ => []
  end.

Definition bound_chains (h : list ImageReader) : list (list Layer) :=
  flat_map (fun r => flat_map chains_of_call (calls r)) h.

(** The training loss of the spec: the data loss, or the data loss plus
    the mean of the per-variable means of the regularisation losses. *)
Definition regularised (data_loss : Tensor) (reg_losses : list Tensor)
  : Tensor :=
  Add data_loss (ReduceMean (Stack (map ReduceMean reg_losses))).

(** The result decoder of the spec: the artifact a mode decodes and how
    many leading columns of the location it passes ([None]: no location
    at all); TRAIN decodes nothing. *)
Definition decode_plan (m : Mode) : option (string * option nat) :=
  match m with
  | TRAIN => None
  | ENCODE => Some ("embedded", Some 1%nat)
  | ENCODE_DECODE => Some ("generated_image", Some 1%nat)
  | SAMPLE => Some ("generated_image", None)
  | INTERPOLATE => Some ("generated_image", Some 2%nat)
  end.

(** ** Runs of an application after its data set loader is set up *)

Inductive Call : Type :=
| DoInitialiseSampler
| DoInitialiseNetwork
| DoConnectDataAndNetwork
| DoInterpretOutput (batch_output : gmap string NdArray).

Definition do_call (c : Call) : M unit :=
  match c with
  | DoInitialiseSampler => initialise_sampler
  | DoInitialiseNetwork => initialise_network
  | DoConnectDataAndNetwork => connect_data_and_network
  | DoInterpretOutput batch_output =>
      let* _ := interpret_output batch_output in ret tt
  end.

(** The calls in order, up to the first one that raises. *)
Fixpoint do_calls (cs : list Call) : M unit :=
  match cs with
  | [] => ret tt
  | c :: rest => let* _ := do_call c in do_calls rest
  end.

(** The events that read from a reader: popping a batch off a sampler. *)
Definition reads_data (e : Event) : bool :=
  match e with
  | CallPopBatch _ _ => true
  | _ => false
  end.

End Application.

Notation "'let*' x ':=' m 'in' k" := (bind m (fun x => k))
  (at level 10, x name, m at level 100, k at level 200).

(** * A small configuration to run the methods on

    A 3-D application with batches of two windows of 4x4x4 voxels, a
    network of eight outputs whose last one is a latent code of three
    values per window, and samplers that deliver an image, a feature and
    their locations. *)

Definition demo_net_param (reg : string) (decay : float) : NetParam :=
  {| batch_size := 2; reg_type := reg; decay := decay; name := "vae" |}.

Definition demo_action_param : ActionParam :=
  {| random_flipping_axes := AxisTuple [0%Z; 1%Z];
     scaling_percentage := [(-10)%float; 10%float];
     rotation_angle := [(-10)%float; 10%float];
     lr := 0.5%float;
     loss_type := "VariationalLowerBound";
     spatial_window_size := [4; 4; 4]%nat;
     save_seg_dir := "output" |}.

Definition demo_task_param (inference : string) : TaskParam :=
  {| inference_type := inference; n_interpolations := 10;
     noise_stddev := 1%float |}.

Definition demo_app (training : bool) : @App string :=
  {| is_training := training;
     net_param := demo_net_param "L2" 0.5%float;
     action_param := demo_action_param;
     data_param := None;
     autoencoder_param := None;
     _infer_type := None;
     reader := PyNone;
     sampler := None;
     net := None;
     optimiser := None;
     output_decoder := None |}.

Definition demo_world (training : bool) : @World string :=
  {| self := demo_app training;
     heap := [];
     outputs_collector := Some [];
     gradients_collector := Some {| current_tower_id := 0; gradients := [] |};
     trace := [] |}.

Definition demo_net_output : list Tensor :=
  [Produced "out0" [2; 4; 4; 4; 1]%nat; Produced "out1" [2; 4; 4; 4; 1]%nat;
   Produced "out2" [2; 4; 4; 4; 1]%nat; Produced "out3" [2; 4; 4; 4; 1]%nat;
   Produced "out4" [2; 3]%nat; Produced "out5" [2; 3]%nat;
   Produced "out6" [2; 3]%nat; Produced "out7" [2; 3]%nat].

Definition demo_batch : gmap string Tensor :=
  <["image" := Produced "image" [2; 4; 4; 4; 1]%nat]>
  (<["image_location" := Produced "image_location" [2; 7]%nat]>
  (<["feature" := Produced "feature" [2; 1; 1; 1; 3]%nat]>
  (<["feature_location" := Produced "feature_location" [2; 7]%nat]> ∅))).

Definition demo_collaborators : @Collaborators string :=
  {| net_call := fun _ _ _ => demo_net_output;
     shared_decoder := fun _ _ _ => Produced "shared_decoder" [2; 16]%nat;
     decoder_means := fun _ _ _ => Produced "decoder_means" [2; 4; 4; 4; 1]%nat;
     pop_batch_op := fun _ _ => demo_batch;
     LossFunction := fun _ _ => Produced "loss" [];
     regularization_losses :=
       [Produced "w_reg" [3; 3]%nat; Produced "b_reg" [3]%nat];
     decode_batch := fun _ _ _ => true |}.

(** The demo application after each step of its life cycle. *)

Definition demo_loaded (training : bool) (inference : string)
  : @World string :=
  (initialise_dataset_loader (Some "data") (Some (demo_task_param inference))
                             (demo_world training)).2.

Definition demo_sampled (training : bool) (inference : string)
  : @World string :=
  (initialise_sampler (demo_loaded training inference)).2.

Definition demo_built (training : bool) (inference : string)
  : @World string :=
  (initialise_network (demo_sampled training inference)).2.

Definition demo_connected (training : bool) (inference : string)
  : @World string :=
  (@connect_data_and_network _ demo_collaborators
     (demo_built training inference)).2.

Definition demo_network : Network :=
  {| net_name := "vae";
     w_regularizer := Some (l2_regularizer 0.5%float);
     b_regularizer := Some (l2_regularizer 0.5%float) |}.

(** A fetched batch: an artifact per name and a location of two rows and
    three columns, the last of which holds 99. *)
Definition demo_location_rows : list (list NdArray) :=
  [[Item (SInt 0); Item (SInt 1); Item (SInt 99)];
   [Item (SInt 1); Item (SInt 2); Item (SInt 99)]].

Definition demo_batch_output : gmap string NdArray :=
  <["embedded" := Arr [Item (SFloat 0.5%float)]]>
  (<["generated_image" := Arr [Item (SFloat 1%float)]]>
  (<["location" := Arr (Arr <$> demo_location_rows)]> ∅)).

(** * The constructor and some observations

    [__init__] runs on the object as [BaseApplication.__init__] (not among
    the sources) leaves it: it stores the flag and the two parameter
    objects and clears the two configurations; the log line has no effect
    on the application. *)

Definition __init__ {DataParam : Type}
    (net_param0 : NetParam) (action_param0 : ActionParam)
    (is_training0 : bool) : @M DataParam unit :=
  modify_self
    (fun a =>
       {| is_training := is_training0;
          net_param := net_param0;
          action_param := action_param0;
          data_param := None;
          autoencoder_param := None;
          _infer_type := _infer_type a; reader := reader a;
          sampler := sampler a; net := net a; optimiser := optimiser a;
          output_decoder := output_decoder a |}).

(** The reader a sampler was built over. *)
Definition sampler_reader {DataParam : Type} (s : @Sampler DataParam)
  : PyReader :=
  match s with
  | ResizeSampler r _ _ _ _ => r
  | LinearInterpolateSampler r _ _ _ => r
  end.

(** The four branches of the inference part of
    [connect_data_and_network]. *)
Definition has_inference_branch (infer_type : option string) : bool :=
  py_in infer_type ["encode"; "encode-decode"] ||
  py_eq infer_type "sample" ||
  py_eq infer_type "linear_interpolation".

(** Network calls made with the training flag [b]; other events pass. *)
Definition net_called_with {DataParam : Type} (b : bool)
    (e : @Event DataParam) : bool :=
  match e with
  | CallNet _ training => Bool.eqb training b
  | _ => true
  end.

(** The demo application with a scaling option of a single value. *)
Definition demo_short_range_world : @World string :=
  {| self :=
       {| is_training := true;
          net_param := demo_net_param "L2" 0.5%float;
          action_param :=
            {| random_flipping_axes := AxisInt (-1);
               scaling_percentage := [10%float];
               rotation_angle := [];
               lr := 0.5%float;
               loss_type := "VariationalLowerBound";
               spatial_window_size := [4; 4; 4]%nat;
               save_seg_dir := "output" |};
          data_param := None; autoencoder_param := None;
          _infer_type := None; reader := PyNone; sampler := None;
          net := None; optimiser := None; output_decoder := None |};
     heap := []; outputs_collector := None; gradients_collector := None;
     trace := [] |}.

(** Collaborators as the demo ones, with a network of three outputs
    only. *)
Definition short_collaborators : @Collaborators string :=
  {| net_call := fun _ _ _ => take 3 demo_net_output;
     shared_decoder := fun _ _ _ => Produced "shared_decoder" [2; 16]%nat;
     decoder_means := fun _ _ _ => Produced "decoder_means" [2; 4; 4; 4; 1]%nat;
     pop_batch_op := fun _ _ => demo_batch;
     LossFunction := fun _ _ => Produced "loss" [];
     regularization_losses := [];
     decode_batch := fun _ _ _ => true |}.

(** The demo application, not training, with [None] recorded as its
    inference type. *)
Definition demo_unset_world : @World string :=
  (modify_self (set_infer_type None) (demo_world false)).2.

(** The fetched batch of the demo with other values in the third location
    column. *)
Definition demo_batch_output' : gmap string NdArray :=
  <["location" :=
      Arr [Arr [Item (SInt 0); Item (SInt 1); Item (SInt 7)];
           Arr [Item (SInt 1); Item (SInt 2); Item (SInt 8)]]]>
    demo_batch_output.

Arguments look_up_operations : simpl never.
Arguments call_reader : simpl never.
Arguments bound_chains : simpl never.
Arguments dict_item : simpl never.
Arguments item : simpl never.
Arguments last_item : simpl never.
Arguments slice_columns : simpl never.

(** * Properties *)

Section Properties.

Context {DataParam : Type} {collaborators : @Collaborators DataParam}.

Implicit Types (w : @World DataParam) (a : @App DataParam) (m : Mode).

(** ** The supported-mode lookup *)

Lemma supported_inference_spec (s : string) :
  s ∈ SUPPORTED_INFERENCE <->
  s = "encode" \/ s = "encode-decode" \/ s = "sample" \/
  s = "linear_interpolation".
Proof.
  unfold SUPPORTED_INFERENCE.
  rewrite !elem_of_union, !elem_of_singleton. tauto.
Qed.

Lemma look_up_supported (s : string) :
  s ∈ SUPPORTED_INFERENCE ->
  look_up_operations s SUPPORTED_INFERENCE = inr s.
Proof.
  intros Hs. unfold look_up_operations.
  destruct (decide (s ∈ SUPPORTED_INFERENCE)) as [_ | Hn]; [reflexivity | ].
  contradiction.
Qed.

Lemma look_up_unsupported (s : string) :
  s ∉ SUPPORTED_INFERENCE ->
  look_up_operations s SUPPORTED_INFERENCE = inl (ConfigurationError s).
Proof.
  intros Hs. unfold look_up_operations.
  destruct (decide (s ∈ SUPPORTED_INFERENCE)) as [Hin | _]; [ | reflexivity].
  contradiction.
Qed.

Lemma look_up_infer_type m (s : string) :
  infer_type_of m = Some s ->
  look_up_operations s SUPPORTED_INFERENCE = inr s.
Proof.
  intros H. apply look_up_supported, supported_inference_spec.
  destruct m; simpl in H; try discriminate; injection H as <-; tauto.
Qed.

(** ** Modes *)

Lemma mode_of_found (p : TaskParam) m (s : string) :
  infer_type_of m = Some s -> inference_type p = s ->
  match m with
  | TRAIN => false = true
  | _ => false = false /\
         exists p', Some p = Some p' /\
                    Some (inference_type p') = infer_type_of m
  end.
Proof.
  intros Hm <-. destruct m; try discriminate; eauto.
Qed.

Lemma mode_of_inv (training : bool) (tp : option TaskParam) m :
  mode_of training tp = Some m ->
  match m with
  | TRAIN => training = true
  | _ => training = false /\
         exists p, tp = Some p /\ Some (inference_type p) = infer_type_of m
  end.
Proof.
  unfold mode_of. destruct training.
  - intros H. injection H as <-. reflexivity.
  - destruct tp as [p | ]; [ | discriminate].
    cbv zeta.
    destruct (String.eqb_spec (inference_type p) "encode") as [E | _];
      [intros H; injection H as <-; exact (mode_of_found p ENCODE _ eq_refl E) | ].
    destruct (String.eqb_spec (inference_type p) "encode-decode") as [E | _];
      [intros H; injection H as <-; exact (mode_of_found p ENCODE_DECODE _ eq_refl E) | ].
    destruct (String.eqb_spec (inference_type p) "sample") as [E | _];
      [intros H; injection H as <-; exact (mode_of_found p SAMPLE _ eq_refl E) | ].
    destruct (String.eqb_spec (inference_type p) "linear_interpolation")
      as [E | _];
      [intros H; injection H as <-; exact (mode_of_found p INTERPOLATE _ eq_refl E) | ].
    discriminate.
Qed.

(** ** Reader objects *)

Lemma call_reader_fresh a (h : list (@ImageReader DataParam)) oc gc tr obj c :
  call_reader (ReaderRef (length h)) c
    {| self := a; heap := h ++ [obj]; outputs_collector := oc;
       gradients_collector := gc; trace := tr |} =
  (inr tt,
   {| self := a;
      heap := h ++ [{| names := names obj; calls := calls obj ++ [c] |}];
      outputs_collector := oc; gradients_collector := gc; trace := tr |}).
Proof.
  unfold call_reader. cbn [heap self outputs_collector gradients_collector trace].
  rewrite list_lookup_middle by reflexivity.
  rewrite insert_app_r_alt by reflexivity.
  rewrite Nat.sub_diag. reflexivity.
Qed.

Ltac unfold_monad :=
  unfold bind, ret, gets, modify_self, lift, attr, raise, item, last_item,
    dict_item, emit, new_ImageReader.

Ltac open_world w :=
  let a := fresh "a" in
  destruct w as [a ? ? ? ?]; destruct a; cbn in *.

(** C1. In every mode, [initialise_dataset_loader] builds the reader of
    the mode's channel: one new reader over ['image'] in TRAIN, ENCODE and
    ENCODE_DECODE, one over ['feature'] in INTERPOLATE, initialised with
    the data and task configuration; in SAMPLE it sets the reader to the
    empty tuple, builds no reader and makes no call on any reader (no
    initialisation, no preprocessing binding). *)
Theorem initialise_dataset_loader_channels m w dp tp :
  mode_of (is_training (self w)) tp = Some m ->
  let r := initialise_dataset_loader dp tp w in
  match m with
  | SAMPLE =>
      r.1 = inr tt /\
      reader (self r.2) = PyEmptyTuple /\
      heap r.2 = heap w
  | TRAIN =>
      reader (self r.2) = ReaderRef (length (heap w)) /\
      exists cs,
        heap r.2 =
          heap w ++ [{| names := mode_channels m;
                        calls := initialise_reader dp tp :: cs |}]
  | _ =>
      r.1 = inr tt /\
      reader (self r.2) = ReaderRef (length (heap w)) /\
      heap r.2 =
        heap w ++ [{| names := mode_channels m;
                      calls := [initialise_reader dp tp;
                                add_preprocessing_layers []] |}]
  end.
Proof.
  intros Hm. apply mode_of_inv in Hm.
  open_world w.
  destruct m; [ | destruct Hm as (-> & p & -> & Hp) ..].
  - subst. unfold initialise_dataset_loader. unfold_monad. cbn.
    rewrite call_reader_fresh. cbn.
    destruct (flip_axes_ne_minus_one _);
      destruct (scaling_percentage _) as [ | ? [ | ? ?]];
      destruct (rotation_angle _) as [ | ? [ | ? ?]]; cbn;
      rewrite ?call_reader_fresh; cbn; eauto.
  - unfold initialise_dataset_loader. unfold_monad. cbn.
    injection Hp as ->. rewrite (look_up_infer_type ENCODE) by reflexivity.
    cbn. rewrite call_reader_fresh. cbn. rewrite call_reader_fresh. cbn.
    repeat split; reflexivity.
  - unfold initialise_dataset_loader. unfold_monad. cbn.
    injection Hp as ->.
    rewrite (look_up_infer_type ENCODE_DECODE) by reflexivity.
    cbn. rewrite call_reader_fresh. cbn. rewrite call_reader_fresh. cbn.
    repeat split; reflexivity.
  - unfold initialise_dataset_loader. unfold_monad. cbn.
    injection Hp as ->. rewrite (look_up_infer_type SAMPLE) by reflexivity.
    cbn. repeat split; reflexivity.
  - unfold initialise_dataset_loader. unfold_monad. cbn.
    injection Hp as ->.
    rewrite (look_up_infer_type INTERPOLATE) by reflexivity.
    cbn. rewrite call_reader_fresh. cbn. rewrite call_reader_fresh. cbn.
    repeat split; reflexivity.
Qed.

Lemma unsupported_not_in (s : string) :
  s <> "encode" -> s <> "encode-decode" -> s <> "sample" ->
  s <> "linear_interpolation" -> s ∉ SUPPORTED_INFERENCE.
Proof.
  intros H1 H2 H3 H4 Hin. apply supported_inference_spec in Hin. tauto.
Qed.

(** C3. An inference type outside the four supported strings makes both
    the set-up step and the decoding step of an application that is not
    training raise the configuration error of the lookup. *)
Theorem unsupported_inference_type_raises w dp (p : TaskParam) :
  is_training (self w) = false ->
  inference_type p <> "encode" ->
  inference_type p <> "encode-decode" ->
  inference_type p <> "sample" ->
  inference_type p <> "linear_interpolation" ->
  (initialise_dataset_loader dp (Some p) w).1 =
    inl (ConfigurationError (inference_type p)) /\
  forall w2 (batch_output : gmap string NdArray),
    is_training (self w2) = false ->
    autoencoder_param (self w2) = Some p ->
    (interpret_output batch_output w2).1 =
      inl (ConfigurationError (inference_type p)).
Proof.
  intros Ht H1 H2 H3 H4.
  pose proof (look_up_unsupported _ (unsupported_not_in _ H1 H2 H3 H4)) as Hl.
  split.
  - open_world w. subst.
    unfold initialise_dataset_loader. unfold_monad. cbn.
    rewrite Hl. reflexivity.
  - intros w2 batch_output Ht2 Hp.
    open_world w2. subst.
    unfold interpret_output. unfold_monad. cbn.
    rewrite Hl. reflexivity.
Qed.

(** C10. With the training flag false and an unsupported inference type,
    [initialise_dataset_loader] raises before it builds, initialises or
    binds any reader: the reader, the sampler, the network, the store of
    reader objects and the recorded inference type are as before. *)
Theorem unsupported_inference_type_atomic w dp (p : TaskParam) :
  is_training (self w) = false ->
  inference_type p ∉ SUPPORTED_INFERENCE ->
  exists w',
    initialise_dataset_loader dp (Some p) w =
      (inl (ConfigurationError (inference_type p)), w') /\
    reader (self w') = reader (self w) /\
    sampler (self w') = sampler (self w) /\
    net (self w') = net (self w) /\
    output_decoder (self w') = output_decoder (self w) /\
    _infer_type (self w') = _infer_type (self w) /\
    heap w' = heap w /\
    trace w' = trace w.
Proof.
  intros Ht Hn. apply look_up_unsupported in Hn.
  open_world w. subst.
  unfold initialise_dataset_loader. unfold_monad. cbn.
  rewrite Hn. eexists. split; [reflexivity | ]. cbn. tauto.
Qed.

(** What a successful set-up leaves: an application set up in its mode. *)
Lemma initialise_dataset_loader_set_up m w dp tp w' :
  mode_of (is_training (self w)) tp = Some m ->
  initialise_dataset_loader dp tp w = (inr tt, w') ->
  set_up m (self w').
Proof.
  intros Hm. pose proof Hm as Hi. apply mode_of_inv in Hi.
  open_world w.
  destruct m; [ | destruct Hi as (-> & p & -> & Hp) ..].
  - subst. unfold initialise_dataset_loader. unfold_monad. cbn.
    rewrite call_reader_fresh. cbn.
    destruct (flip_axes_ne_minus_one _);
      destruct (scaling_percentage _) as [ | ? [ | ? ?]];
      destruct (rotation_angle _) as [ | ? [ | ? ?]]; cbn;
      rewrite ?call_reader_fresh; cbn; intros H; inversion H; subst;
      split; reflexivity.
  - unfold initialise_dataset_loader. unfold_monad. cbn.
    rewrite (look_up_infer_type ENCODE) by (symmetry; exact Hp).
    injection Hp as Hp. rewrite Hp. cbn.
    rewrite call_reader_fresh. cbn. rewrite call_reader_fresh. cbn.
    intros H; inversion H; subst. split; cbn; [ | reflexivity].
    exact Hm.
  - unfold initialise_dataset_loader. unfold_monad. cbn.
    rewrite (look_up_infer_type ENCODE_DECODE) by (symmetry; exact Hp).
    injection Hp as Hp. rewrite Hp. cbn.
    rewrite call_reader_fresh. cbn. rewrite call_reader_fresh. cbn.
    intros H; inversion H; subst. split; cbn; [ | reflexivity].
    exact Hm.
  - unfold initialise_dataset_loader. unfold_monad. cbn.
    rewrite (look_up_infer_type SAMPLE) by (symmetry; exact Hp).
    injection Hp as Hp. rewrite Hp. cbn.
    intros H; inversion H; subst. split; cbn; [ | reflexivity].
    exact Hm.
  - unfold initialise_dataset_loader. unfold_monad. cbn.
    rewrite (look_up_infer_type INTERPOLATE) by (symmetry; exact Hp).
    injection Hp as Hp. rewrite Hp. cbn.
    rewrite call_reader_fresh. cbn. rewrite call_reader_fresh. cbn.
    intros H; inversion H; subst. split; cbn; [ | reflexivity].
    exact Hm.
Qed.

Lemma set_up_inv m a :
  set_up m a ->
  _infer_type a = Some (infer_type_of m) /\
  match m with
  | TRAIN => is_training a = true
  | _ => is_training a = false /\
         exists p, autoencoder_param a = Some p /\
                   Some (inference_type p) = infer_type_of m
  end.
Proof.
  intros [Hm Hi]. split; [exact Hi | ]. apply mode_of_inv in Hm. exact Hm.
Qed.

(** C2. In every mode, [initialise_sampler] sets up the samplers of the
    mode: one shuffling resize sampler of one window per image in TRAIN,
    one resize sampler without shuffling in ENCODE and ENCODE_DECODE, one
    linear-interpolation sampler with the configured number of
    interpolations in INTERPOLATE, and none (an empty list) in SAMPLE. *)
Theorem initialise_sampler_mode m w :
  set_up m (self w) ->
  exists w',
    initialise_sampler w = (inr tt, w') /\
    sampler (self w') = Some (mode_samplers m (self w)) /\
    reader (self w') = reader (self w) /\
    heap w' = heap w.
Proof.
  intros Hs. apply set_up_inv in Hs. destruct Hs as [Hi Hm].
  open_world w. subst.
  destruct m; [ | destruct Hm as (-> & p & -> & Hp) ..];
    subst; unfold initialise_sampler, append_sampler; unfold_monad; cbn;
    eexists; (split; [reflexivity | ]); cbn; tauto.
Qed.

Lemma bound_chains_app (h1 h2 : list (@ImageReader DataParam)) :
  bound_chains (h1 ++ h2) = bound_chains h1 ++ bound_chains h2.
Proof. unfold bound_chains. apply flat_map_app. Qed.


(** ** Reading items *)

Lemma dict_item_some {A : Type} (d : gmap string A) (k : string) (v : A) w :
  d !! k = Some v -> dict_item d k w = (inr v, w).
Proof. intros H. unfold dict_item. rewrite H. reflexivity. Qed.

Lemma item_some {A : Type} (l : list A) (i : nat) (v : A) w :
  l !! i = Some v -> item l i w = (inr v, w).
Proof. intros H. unfold item. rewrite H. reflexivity. Qed.

Lemma last_item_some {A : Type} (l : list A) (v : A) w :
  last l = Some v -> last_item l w = (inr v, w).
Proof. intros H. unfold last_item. rewrite H. reflexivity. Qed.

Ltac unfold_calls :=
  unfold get_sampler, call_net, call_shared_decoder, call_decoder_means,
    call_pop_batch_op, call_random_normal, call_reshape, call_decode_batch,
    add_output, add_gradients, tower_id, bind, ret, gets, modify_self, lift,
    attr, raise, emit.

(** C4. In training, the loss handed to [compute_gradients] is the data
    loss when the decay is zero or when there are no regularisation
    losses, and the data loss plus the mean of the per-variable means of
    the regularisation losses when the decay is positive and there are
    some; at network construction a positive decay with type l2 and with
    type l1 select two different regularisers. *)
Theorem training_loss_and_regularizer w gc oc s rest img n :
  is_training (self w) = true ->
  sampler (self w) = Some (s :: rest) ->
  gradients_collector w = Some gc ->
  outputs_collector w = Some oc ->
  pop_batch_op s (Some (current_tower_id gc)) !! "image" = Some img ->
  net (self w) = Some n ->
  let ap := action_param (self w) in
  let np := net_param (self w) in
  let data_loss :=
    LossFunction (loss_type ap) (net_call n (Cast img float32) true) in
  (exists w' loss,
     connect_data_and_network w = (inr tt, w') /\
     gradients_collector w' =
       Some {| current_tower_id := current_tower_id gc;
               gradients :=
                 gradients gc ++
                 [[compute_gradients (AdamOptimizer (lr ap)) loss]] |} /\
     (decay np = 0%float -> loss = data_loss) /\
     (regularization_losses = [] -> loss = data_loss) /\
     ((0 <? decay np)%float = true -> regularization_losses <> [] ->
      loss = regularised data_loss regularization_losses)) /\
  (forall w0, exists w1 wr br,
     initialise_network w0 = (inr tt, w1) /\
     net (self w1) =
       Some {| net_name := name (net_param (self w0));
               w_regularizer := wr; b_regularizer := br |} /\
     let d := decay (net_param (self w0)) in
     let t := lower (reg_type (net_param (self w0))) in
     ((0 <? d)%float = true -> t = "l2" ->
      wr = Some (l2_regularizer d) /\ br = Some (l2_regularizer d)) /\
     ((0 <? d)%float = true -> t = "l1" ->
      wr = Some (l1_regularizer d) /\ br = Some (l1_regularizer d)) /\
     l2_regularizer d <> l1_regularizer d).
Proof.
  intros Ht Hs Hg Ho Himg Hn ap np data_loss. split.
  - subst ap np data_loss. open_world w. subst.
    unfold connect_data_and_network. unfold_calls. cbn.
    rewrite (item_some _ _ _ _ (eq_refl : (s :: rest) !! 0%nat = Some s)).
    cbn. rewrite (dict_item_some _ _ _ _ Himg). cbn.
    eexists. eexists. split; [reflexivity | ]. cbn.
    split; [reflexivity | ].
    destruct (0 <? decay net_param0)%float eqn:Ed.
    + split; [ | split].
      * intros Hz. rewrite Hz in Ed. vm_compute in Ed. discriminate Ed.
      * intros ->. reflexivity.
      * intros _ Hne. destruct regularization_losses; [congruence | reflexivity].
    + split; [ | split]; [reflexivity | reflexivity | discriminate].
  - intros w0. open_world w0.
    unfold initialise_network. unfold_calls. cbn.
    destruct (0 <? decay net_param0)%float eqn:Ed;
      destruct (String.eqb_spec (lower (reg_type net_param0)) "l2") as [E2 | N2];
      destruct (String.eqb_spec (lower (reg_type net_param0)) "l1") as [E1 | N1];
      cbn; do 3 eexists; (split; [reflexivity | ]); cbn;
      (split; [reflexivity | ]);
      repeat split; try reflexivity; try congruence; try discriminate.
Qed.

(** C5. On the tuple that one forward pass on a real image batch returns,
    ENCODE declares the element at index 7 under the name ['embedded'] and
    ENCODE_DECODE declares the element at index 2 under the name
    ['generated_image']. *)
Theorem encode_and_encode_decode_outputs m w oc s rest img loc n o2 o7 :
  set_up m (self w) ->
  m = ENCODE \/ m = ENCODE_DECODE ->
  sampler (self w) = Some (s :: rest) ->
  outputs_collector w = Some oc ->
  pop_batch_op s None !! "image" = Some img ->
  pop_batch_op s None !! "image_location" = Some loc ->
  net (self w) = Some n ->
  net_call n (Cast img float32) false !! 2%nat = Some o2 ->
  net_call n (Cast img float32) false !! 7%nat = Some o7 ->
  exists w',
    connect_data_and_network w = (inr tt, w') /\
    outputs_collector w' =
      Some (oc ++ [console loc "location";
                   match m with
                   | ENCODE => console o7 "embedded"
                   | _ => console o2 "generated_image"
                   end]) /\
    trace w' = trace w ++ [CallPopBatch s None;
                           CallNet (Cast img float32) false].
Proof.
  intros Hs Hm Hsam Ho Himg Hloc Hn H2 H7.
  apply set_up_inv in Hs. destruct Hs as [Hi Hs].
  open_world w. subst.
  destruct Hm as [-> | ->]; destruct Hs as (-> & p & -> & Hp);
    unfold connect_data_and_network; unfold_calls; cbn;
    rewrite (item_some _ _ _ _ (eq_refl : (s :: rest) !! 0%nat = Some s));
    cbn; rewrite (dict_item_some _ _ _ _ Himg); cbn;
    rewrite (dict_item_some _ _ _ _ Hloc); cbn.
  - rewrite (item_some _ _ _ _ H7). cbn.
    eexists. split; [reflexivity | ]. cbn.
    rewrite <- !app_assoc. split; reflexivity.
  - rewrite (item_some _ _ _ _ H2). cbn.
    eexists. split; [reflexivity | ]. cbn.
    rewrite <- !app_assoc. split; reflexivity.
Qed.

(** C8. In INTERPOLATE mode, [connect_data_and_network] first runs the
    network on a dummy batch of zeros, then pops the feature batch and
    reshapes it to the shape of the last network output; with equal
    element counts the reshaped code goes through the decoder, with
    different ones the step raises the shape-mismatch error right at the
    reshape. *)
Theorem interpolate_reshapes_to_latent w oc s rest code loc n latent :
  set_up INTERPOLATE (self w) ->
  sampler (self w) = Some (s :: rest) ->
  outputs_collector w = Some oc ->
  pop_batch_op s None !! "feature" = Some code ->
  pop_batch_op s None !! "feature_location" = Some loc ->
  net (self w) = Some n ->
  let dummy_image :=
    Zeros ([batch_size (net_param (self w))] ++
           spatial_window_size (action_param (self w)) ++ [1%nat]) in
  last (net_call n dummy_image false) = Some latent ->
  let r := connect_data_and_network w in
  let real_code := Reshape code (get_shape latent) in
  (num_elements (get_shape code) = num_elements (get_shape latent) ->
   r.1 = inr tt /\
   get_shape real_code = get_shape latent /\
   trace r.2 =
     trace w ++
     [CallNet dummy_image false; CallPopBatch s None;
      CallReshape code (get_shape latent);
      CallSharedDecoder real_code;
      CallDecoderMeans (shared_decoder n real_code false)]) /\
  (num_elements (get_shape code) <> num_elements (get_shape latent) ->
   r.1 = inl (ShapeMismatchError (get_shape code) (get_shape latent)) /\
   trace r.2 =
     trace w ++
     [CallNet dummy_image false; CallPopBatch s None;
      CallReshape code (get_shape latent)]).
Proof.
  intros Hs Hsam Ho Hcode Hloc Hn dummy_image Hlast r real_code.
  apply set_up_inv in Hs. destruct Hs as [Hi (Ht & p & Hp & Hname)].
  subst r real_code dummy_image.
  open_world w. subst.
  unfold connect_data_and_network; unfold_calls; cbn.
  rewrite (item_some _ _ _ _ (eq_refl : (s :: rest) !! 0%nat = Some s)).
  cbn. rewrite (dict_item_some _ _ _ _ Hcode). cbn.
  rewrite (last_item_some _ _ _ Hlast). cbn.
  unfold tf_reshape.
  split; intros Hnum.
  - apply Nat.eqb_eq in Hnum. rewrite Hnum. cbn.
    rewrite (dict_item_some _ _ _ _ Hloc). cbn.
    rewrite <- !app_assoc. repeat split; reflexivity.
  - apply Nat.eqb_neq in Hnum. rewrite Hnum. cbn.
    rewrite <- !app_assoc. split; reflexivity.
Qed.

(** ** SAMPLE mode never reads data *)

Ltac trace_extended :=
  first [ exists []; rewrite app_nil_r; split; reflexivity
        | rewrite <- ?app_assoc; eexists; split; reflexivity ].

Lemma sample_call_keeps_reader (c : Call) w :
  set_up SAMPLE (self w) ->
  reader (self w) = PyEmptyTuple ->
  let w' := (do_call c w).2 in
  set_up SAMPLE (self w') /\
  reader (self w') = PyEmptyTuple /\
  heap w' = heap w /\
  exists evs, trace w' = trace w ++ evs /\
              forallb (fun e => negb (reads_data e)) evs = true.
Proof.
  intros Hs Hr. pose proof Hs as Hs'.
  apply set_up_inv in Hs'. destruct Hs' as [Hi (Ht & p & Hp & Hname)].
  destruct Hs as [Hmode _].
  open_world w. subst. injection Hname as Hname.
  destruct c as [ | | | batch_output]; unfold do_call.
  - unfold initialise_sampler, append_sampler. unfold_calls. cbn.
    repeat split; try assumption; try reflexivity. trace_extended.
  - unfold initialise_network. unfold_calls. cbn.
    destruct (_ && _); [ | destruct (_ && _)]; cbn;
      (repeat split; try assumption; try reflexivity; trace_extended).
  - unfold connect_data_and_network, last_item. unfold_calls. cbn.
    destruct net0 as [n | ]; cbn;
      [ | repeat split; try assumption; try reflexivity; trace_extended].
    destruct (last _) as [latent | ]; cbn;
      [ | repeat split; try assumption; try reflexivity; trace_extended].
    destruct outputs_collector0 as [oc | ]; cbn;
      (repeat split; try assumption; try reflexivity; trace_extended).
  - unfold interpret_output, dict_item. unfold_calls. cbn.
    rewrite (look_up_infer_type SAMPLE) by (cbn; congruence).
    rewrite Hname. cbn.
    destruct output_decoder0 as [agg | ]; cbn;
      [ | repeat split; try assumption; try reflexivity; trace_extended].
    destruct (batch_output !! "generated_image") as [artifact | ]; cbn;
      (repeat split; try assumption; try reflexivity; trace_extended).
Qed.

Lemma sample_calls_keep_reader (cs : list Call) w :
  set_up SAMPLE (self w) ->
  reader (self w) = PyEmptyTuple ->
  let w' := (do_calls cs w).2 in
  reader (self w') = PyEmptyTuple /\
  heap w' = heap w /\
  exists evs, trace w' = trace w ++ evs /\
              forallb (fun e => negb (reads_data e)) evs = true.
Proof.
  revert w. induction cs as [ | c cs IH]; intros w Hs Hr; cbn.
  - repeat split; try assumption. exists []. rewrite app_nil_r. split; reflexivity.
  - pose proof (sample_call_keeps_reader c w Hs Hr) as Hc. cbn in Hc.
    unfold bind.
    destruct (do_call c w) as [[e | []] w1]; cbn in *.
    + destruct Hc as (_ & Hr1 & Hh1 & Hev). tauto.
    + destruct Hc as (Hs1 & Hr1 & Hh1 & evs1 & Ht1 & Hf1).
      destruct (IH w1 Hs1 Hr1) as (Hr2 & Hh2 & evs2 & Ht2 & Hf2).
      split; [exact Hr2 | ]. split; [congruence | ].
      exists (evs1 ++ evs2). rewrite Ht2, Ht1, app_assoc.
      split; [reflexivity | ].
      rewrite forallb_app, Hf1, Hf2. reflexivity.
Qed.

Lemma initialise_dataset_loader_sample w dp (p : TaskParam) :
  is_training (self w) = false ->
  inference_type p = "sample" ->
  initialise_dataset_loader dp (Some p) w =
    (inr tt,
     {| self := set_reader PyEmptyTuple
                  (set_infer_type (Some "sample")
                     (set_autoencoder_param (Some p)
                        (set_data_param dp (self w))));
        heap := heap w;
        outputs_collector := outputs_collector w;
        gradients_collector := gradients_collector w;
        trace := trace w |}).
Proof.
  intros Ht Hp. open_world w. subst.
  unfold initialise_dataset_loader. unfold_monad. cbn.
  rewrite (look_up_infer_type SAMPLE) by (cbn; congruence).
  rewrite Hp. reflexivity.
Qed.

(** C9. In SAMPLE mode the reader is the empty tuple from set-up on and
    through every later call of the application; no reader object is
    built or called and no batch is popped; the noise fed to the decoder
    entry points is normal with the configured standard deviation and has
    the shape of the last output of the forward pass on the dummy
    batch. *)
Theorem sample_mode_reads_nothing w dp tp :
  mode_of (is_training (self w)) tp = Some SAMPLE ->
  exists w1,
    initialise_dataset_loader dp tp w = (inr tt, w1) /\
    reader (self w1) = PyEmptyTuple /\
    heap w1 = heap w /\
    (forall cs : list Call,
       let w2 := (do_calls cs w1).2 in
       reader (self w2) = PyEmptyTuple /\
       heap w2 = heap w /\
       exists evs, trace w2 = trace w ++ evs /\
                   forallb (fun e => negb (reads_data e)) evs = true) /\
    (forall w2 n latent oc p,
       set_up SAMPLE (self w2) ->
       net (self w2) = Some n ->
       outputs_collector w2 = Some oc ->
       autoencoder_param (self w2) = Some p ->
       let dummy_image :=
         Zeros ([batch_size (net_param (self w2))] ++
                spatial_window_size (action_param (self w2)) ++ [1%nat]) in
       last (net_call n dummy_image false) = Some latent ->
       let noise :=
         RandomNormal (get_shape latent) 0%float (noise_stddev p) float32 in
       exists w3,
         connect_data_and_network w2 = (inr tt, w3) /\
         get_shape noise = get_shape latent /\
         trace w3 =
           trace w2 ++
           [CallNet dummy_image false;
            CallRandomNormal (get_shape latent) (noise_stddev p);
            CallSharedDecoder noise;
            CallDecoderMeans (shared_decoder n noise false)] /\
         outputs_collector w3 =
           Some (oc ++
                 [console (decoder_means n (shared_decoder n noise false)
                                         false) "generated_image"]) /\
         output_decoder (self w3) =
           Some (WindowAsImageAggregator
                   PyNone (save_seg_dir (action_param (self w2)))) /\
         reader (self w3) = reader (self w2) /\
         heap w3 = heap w2).
Proof.
  intros Hm. pose proof Hm as Hm'. apply mode_of_inv in Hm'.
  destruct Hm' as (Ht & p & -> & Hp). injection Hp as Hp.
  pose proof (initialise_dataset_loader_sample w dp p Ht Hp) as Hrun.
  eexists. split; [exact Hrun | ].
  split; [reflexivity | ]. split; [reflexivity | ].
  pose proof (initialise_dataset_loader_set_up SAMPLE w dp _ _ Hm Hrun) as Hs1.
  split.
  - intros cs.
    destruct (sample_calls_keep_reader cs _ Hs1 eq_refl)
      as (Hr2 & Hh2 & evs & Ht2 & Hf).
    cbn in Hh2, Ht2. eauto.
  - clear. intros w2 n latent oc p Hs Hn Ho Hp dummy_image Hlast noise.
    apply set_up_inv in Hs. destruct Hs as [Hi (Ht & p' & Hp' & Hname)].
    subst dummy_image noise.
    rewrite Hp in Hp'. injection Hp' as <-.
    open_world w2. subst.
    unfold connect_data_and_network; unfold_calls; cbn.
    rewrite (last_item_some _ _ _ Hlast). cbn.
    eexists. split; [reflexivity | ]. cbn.
    rewrite <- !app_assoc. repeat split; reflexivity.
Qed.

(** ** Decoding *)

Lemma rows_prefix_matrix (k : nat) (rows : list (list NdArray)) :
  rows_prefix k (Arr <$> rows) = inr ((fun r => Arr (take k r)) <$> rows).
Proof.
  induction rows as [ | r rows IH]; [reflexivity | ].
  cbn. cbn in IH. rewrite IH. reflexivity.
Qed.

Lemma slice_columns_matrix (k : nat) (rows : list (list NdArray)) :
  slice_columns k (Arr (Arr <$> rows)) =
  inr (Arr ((fun r => Arr (take k r)) <$> rows)).
Proof. unfold slice_columns. rewrite rows_prefix_matrix. reflexivity. Qed.

(** C6. [interpret_output] dispatches on the mode: ENCODE decodes the
    embedding with column 0 of the location, ENCODE_DECODE the generated
    image with column 0, SAMPLE the generated image with no location,
    INTERPOLATE the generated image with columns 0 and 1; TRAIN decodes
    nothing and returns [True]. *)
Theorem interpret_output_dispatch m w (batch_output : gmap string NdArray) :
  mode_of (is_training (self w)) (autoencoder_param (self w)) = Some m ->
  match decode_plan m with
  | None => interpret_output batch_output w = (inr (Some true), w)
  | Some (key, columns) =>
      forall agg artifact,
        output_decoder (self w) = Some agg ->
        batch_output !! key = Some artifact ->
        match columns with
        | None =>
            interpret_output batch_output w =
              (inr (Some (decode_batch agg artifact None)),
               (emit (CallDecodeBatch agg artifact None) w).2)
        | Some k =>
            forall rows : list (list NdArray),
              batch_output !! "location" = Some (Arr (Arr <$> rows)) ->
              let location := Arr ((fun r => Arr (take k r)) <$> rows) in
              interpret_output batch_output w =
                (inr (Some (decode_batch agg artifact (Some location))),
                 (emit (CallDecodeBatch agg artifact (Some location)) w).2)
        end
  end.
Proof.
  intros Hm. apply mode_of_inv in Hm.
  destruct m; [ | destruct Hm as (Ht & p & Hp & Hname) ..];
    cbv beta iota delta [decode_plan].
  - open_world w. subst. reflexivity.
  - intros agg artifact Hd Ha rows Hl location. subst location.
    open_world w. subst. injection Hname as Hname.
    unfold interpret_output. unfold_calls. cbn.
    rewrite (look_up_infer_type ENCODE) by (cbn; congruence).
    rewrite Hname. cbn.
    rewrite (dict_item_some _ _ _ _ Ha). cbn.
    rewrite (dict_item_some _ _ _ _ Hl). cbn.
    rewrite slice_columns_matrix. reflexivity.
  - intros agg artifact Hd Ha rows Hl location. subst location.
    open_world w. subst. injection Hname as Hname.
    unfold interpret_output. unfold_calls. cbn.
    rewrite (look_up_infer_type ENCODE_DECODE) by (cbn; congruence).
    rewrite Hname. cbn.
    rewrite (dict_item_some _ _ _ _ Ha). cbn.
    rewrite (dict_item_some _ _ _ _ Hl). cbn.
    rewrite slice_columns_matrix. reflexivity.
  - intros agg artifact Hd Ha.
    open_world w. subst. injection Hname as Hname.
    unfold interpret_output. unfold_calls. cbn.
    rewrite (look_up_infer_type SAMPLE) by (cbn; congruence).
    rewrite Hname. cbn.
    rewrite (dict_item_some _ _ _ _ Ha). reflexivity.
  - intros agg artifact Hd Ha rows Hl location. subst location.
    open_world w. subst. injection Hname as Hname.
    unfold interpret_output. unfold_calls. cbn.
    rewrite (look_up_infer_type INTERPOLATE) by (cbn; congruence).
    rewrite Hname. cbn.
    rewrite (dict_item_some _ _ _ _ Ha). cbn.
    rewrite (dict_item_some _ _ _ _ Hl). cbn.
    rewrite slice_columns_matrix. reflexivity.
Qed.

End Properties.

(** C1 on the demo configuration, in INTERPOLATE mode. *)
Lemma initialise_dataset_loader_channels_witness :
  mode_of (is_training (self (demo_world false)))
          (Some (demo_task_param "linear_interpolation")) = Some INTERPOLATE /\
  let r := initialise_dataset_loader
             (Some "data") (Some (demo_task_param "linear_interpolation"))
             (demo_world false) in
  r.1 = inr tt /\
  reader (self r.2) = ReaderRef 0 /\
  heap r.2 =
    [] ++ [{| names := ["feature"];
              calls := [initialise_reader
                          (Some "data")
                          (Some (demo_task_param "linear_interpolation"));
                        add_preprocessing_layers []] |}].
Proof.
  split; [reflexivity | ].
  exact (initialise_dataset_loader_channels
           INTERPOLATE (demo_world false) (Some "data")
           (Some (demo_task_param "linear_interpolation")) eq_refl).
Defined.

(** C2 on the demo configuration, in INTERPOLATE mode. *)
Lemma initialise_sampler_mode_witness :
  set_up INTERPOLATE (self (demo_loaded false "linear_interpolation")) /\
  exists w',
    initialise_sampler (demo_loaded false "linear_interpolation") =
      (inr tt, w') /\
    sampler (self w') =
      Some [LinearInterpolateSampler (ReaderRef 0) (Some "data") 2 10] /\
    reader (self w') = ReaderRef 0 /\
    heap w' = heap (demo_loaded false "linear_interpolation").
Proof.
  assert (H : set_up INTERPOLATE
                (self (demo_loaded false "linear_interpolation")))
    by (split; reflexivity).
  split; [exact H | ].
  exact (initialise_sampler_mode INTERPOLATE _ H).
Defined.

(** C3 on the demo configuration, with the inference type
    ["reconstruct"]. *)
Lemma unsupported_inference_type_raises_witness :
  is_training (self (demo_world false)) = false /\
  "reconstruct" <> "encode" /\
  "reconstruct" <> "encode-decode" /\
  "reconstruct" <> "sample" /\
  "reconstruct" <> "linear_interpolation" /\
  (initialise_dataset_loader
     (Some "data") (Some (demo_task_param "reconstruct"))
     (demo_world false)).1 = inl (ConfigurationError "reconstruct") /\
  forall (w2 : @World string) (batch_output : gmap string NdArray),
    is_training (self w2) = false ->
    autoencoder_param (self w2) = Some (demo_task_param "reconstruct") ->
    (@interpret_output _ demo_collaborators batch_output w2).1 =
      inl (ConfigurationError "reconstruct").
Proof.
  assert (H0 : is_training (self (demo_world false)) = false) by reflexivity.
  assert (H1 : "reconstruct" <> "encode") by discriminate.
  assert (H2 : "reconstruct" <> "encode-decode") by discriminate.
  assert (H3 : "reconstruct" <> "sample") by discriminate.
  assert (H4 : "reconstruct" <> "linear_interpolation") by discriminate.
  repeat (split; [assumption | ]).
  exact (@unsupported_inference_type_raises
           _ demo_collaborators (demo_world false)
           (Some "data") (demo_task_param "reconstruct") H0 H1 H2 H3 H4).
Defined.

(** C10 on the demo configuration, with the inference type
    ["reconstruct"]. *)
Lemma unsupported_inference_type_atomic_witness :
  is_training (self (demo_world false)) = false /\
  (inference_type (demo_task_param "reconstruct") ∉ SUPPORTED_INFERENCE) /\
  exists w',
    initialise_dataset_loader
      (Some "data") (Some (demo_task_param "reconstruct"))
      (demo_world false) = (inl (ConfigurationError "reconstruct"), w') /\
    reader (self w') = PyNone /\
    sampler (self w') = None /\
    net (self w') = None /\
    output_decoder (self w') = None /\
    _infer_type (self w') = None /\
    heap w' = [] /\
    trace w' = [].
Proof.
  assert (H0 : is_training (self (demo_world false)) = false) by reflexivity.
  assert (H1 : inference_type (demo_task_param "reconstruct")
               ∉ SUPPORTED_INFERENCE)
    by (apply unsupported_not_in; discriminate).
  split; [exact H0 | ]. split; [exact H1 | ].
  exact (unsupported_inference_type_atomic
           (demo_world false) (Some "data") (demo_task_param "reconstruct")
           H0 H1).
Defined.


(** C4 on the demo configuration: a positive decay and two
    regularisation losses. *)
Lemma training_loss_and_regularizer_witness :
  is_training (self (demo_built true "encode")) = true /\
  sampler (self (demo_built true "encode")) =
    Some [ResizeSampler (ReaderRef 0) (Some "data") 2 1 true] /\
  gradients_collector (demo_built true "encode") =
    Some {| current_tower_id := 0; gradients := [] |} /\
  outputs_collector (demo_built true "encode") = Some [] /\
  @pop_batch_op _ demo_collaborators
    (ResizeSampler (ReaderRef 0) (Some "data") 2 1 true) (Some 0%nat)
    !! "image" = Some (Produced "image" [2; 4; 4; 4; 1]%nat) /\
  net (self (demo_built true "encode")) = Some demo_network /\
  (exists w' loss,
     @connect_data_and_network _ demo_collaborators
       (demo_built true "encode") = (inr tt, w') /\
     gradients_collector w' =
       Some {| current_tower_id := 0;
               gradients :=
                 [] ++ [[compute_gradients (AdamOptimizer 0.5%float) loss]] |} /\
     (0.5%float = 0%float -> loss = Produced "loss" []) /\
     (@regularization_losses _ demo_collaborators = [] ->
      loss = Produced "loss" []) /\
     ((0 <? 0.5)%float = true ->
      @regularization_losses _ demo_collaborators <> [] ->
      loss = regularised (Produced "loss" [])
               [Produced "w_reg" [3; 3]%nat; Produced "b_reg" [3]%nat])) /\
  (forall w0 : @World string, exists w1 wr br,
     initialise_network w0 = (inr tt, w1) /\
     net (self w1) =
       Some {| net_name := name (net_param (self w0));
               w_regularizer := wr; b_regularizer := br |} /\
     let d := decay (net_param (self w0)) in
     let t := lower (reg_type (net_param (self w0))) in
     ((0 <? d)%float = true -> t = "l2" ->
      wr = Some (l2_regularizer d) /\ br = Some (l2_regularizer d)) /\
     ((0 <? d)%float = true -> t = "l1" ->
      wr = Some (l1_regularizer d) /\ br = Some (l1_regularizer d)) /\
     l2_regularizer d <> l1_regularizer d).
Proof.
  repeat (split; [reflexivity | ]).
  exact (@training_loss_and_regularizer
           _ demo_collaborators (demo_built true "encode")
           {| current_tower_id := 0; gradients := [] |} []
           (ResizeSampler (ReaderRef 0) (Some "data") 2 1 true) []
           (Produced "image" [2; 4; 4; 4; 1]%nat) demo_network
           eq_refl eq_refl eq_refl eq_refl eq_refl eq_refl).
Defined.

(** C5 on the demo configuration, in ENCODE mode: of the eight outputs
    the one at index 7 is declared. *)
Lemma encode_and_encode_decode_outputs_witness :
  set_up ENCODE (self (demo_built false "encode")) /\
  (ENCODE = ENCODE \/ ENCODE = ENCODE_DECODE) /\
  sampler (self (demo_built false "encode")) =
    Some [ResizeSampler (ReaderRef 0) (Some "data") 2 1 false] /\
  outputs_collector (demo_built false "encode") = Some [] /\
  @pop_batch_op _ demo_collaborators
    (ResizeSampler (ReaderRef 0) (Some "data") 2 1 false) None
    !! "image" = Some (Produced "image" [2; 4; 4; 4; 1]%nat) /\
  @pop_batch_op _ demo_collaborators
    (ResizeSampler (ReaderRef 0) (Some "data") 2 1 false) None
    !! "image_location" = Some (Produced "image_location" [2; 7]%nat) /\
  net (self (demo_built false "encode")) = Some demo_network /\
  demo_net_output !! 2%nat = Some (Produced "out2" [2; 4; 4; 4; 1]%nat) /\
  demo_net_output !! 7%nat = Some (Produced "out7" [2; 3]%nat) /\
  exists w',
    @connect_data_and_network _ demo_collaborators
      (demo_built false "encode") = (inr tt, w') /\
    outputs_collector w' =
      Some ([] ++ [console (Produced "image_location" [2; 7]%nat) "location";
                   console (Produced "out7" [2; 3]%nat) "embedded"]) /\
    trace w' =
      trace (demo_built false "encode") ++
      [CallPopBatch (ResizeSampler (ReaderRef 0) (Some "data") 2 1 false) None;
       CallNet (Cast (Produced "image" [2; 4; 4; 4; 1]%nat) float32) false].
Proof.
  assert (H : set_up ENCODE (self (demo_built false "encode")))
    by (split; reflexivity).
  split; [exact H | ]. split; [left; reflexivity | ].
  repeat (split; [reflexivity | ]).
  exact (@encode_and_encode_decode_outputs
           _ demo_collaborators ENCODE (demo_built false "encode") []
           (ResizeSampler (ReaderRef 0) (Some "data") 2 1 false) []
           (Produced "image" [2; 4; 4; 4; 1]%nat)
           (Produced "image_location" [2; 7]%nat) demo_network
           (Produced "out2" [2; 4; 4; 4; 1]%nat) (Produced "out7" [2; 3]%nat)
           H (or_introl eq_refl) eq_refl eq_refl eq_refl eq_refl eq_refl
           eq_refl eq_refl).
Defined.

(** C6 on the demo configuration, in INTERPOLATE mode: the third column
    of the location, which holds 99, is not passed on. *)
Lemma interpret_output_dispatch_witness :
  mode_of (is_training (self (demo_connected false "linear_interpolation")))
          (autoencoder_param
             (self (demo_connected false "linear_interpolation")))
    = Some INTERPOLATE /\
  forall agg artifact,
    output_decoder (self (demo_connected false "linear_interpolation"))
      = Some agg ->
    demo_batch_output !! "generated_image" = Some artifact ->
    forall rows : list (list NdArray),
      demo_batch_output !! "location" = Some (Arr (Arr <$> rows)) ->
      let location := Arr ((fun r => Arr (take 2 r)) <$> rows) in
      @interpret_output _ demo_collaborators demo_batch_output
        (demo_connected false "linear_interpolation") =
        (inr (Some (@decode_batch _ demo_collaborators
                      agg artifact (Some location))),
         (emit (CallDecodeBatch agg artifact (Some location))
               (demo_connected false "linear_interpolation")).2).
Proof.
  split; [reflexivity | ].
  exact (@interpret_output_dispatch
           _ demo_collaborators INTERPOLATE
           (demo_connected false "linear_interpolation") demo_batch_output
           eq_refl).
Defined.

(** C8 on the demo configuration: a feature batch of 2x1x1x1x3 values
    against a latent code of 2x3 values. *)
Lemma interpolate_reshapes_to_latent_witness :
  set_up INTERPOLATE (self (demo_built false "linear_interpolation")) /\
  sampler (self (demo_built false "linear_interpolation")) =
    Some [LinearInterpolateSampler (ReaderRef 0) (Some "data") 2 10] /\
  outputs_collector (demo_built false "linear_interpolation") = Some [] /\
  @pop_batch_op _ demo_collaborators
    (LinearInterpolateSampler (ReaderRef 0) (Some "data") 2 10) None
    !! "feature" = Some (Produced "feature" [2; 1; 1; 1; 3]%nat) /\
  @pop_batch_op _ demo_collaborators
    (LinearInterpolateSampler (ReaderRef 0) (Some "data") 2 10) None
    !! "feature_location" = Some (Produced "feature_location" [2; 7]%nat) /\
  net (self (demo_built false "linear_interpolation")) = Some demo_network /\
  last demo_net_output = Some (Produced "out7" [2; 3]%nat) /\
  let r := @connect_data_and_network _ demo_collaborators
             (demo_built false "linear_interpolation") in
  let code := Produced "feature" [2; 1; 1; 1; 3]%nat in
  let real_code := Reshape code [2; 3]%nat in
  (num_elements [2; 1; 1; 1; 3]%nat = num_elements [2; 3]%nat ->
   r.1 = inr tt /\
   get_shape real_code = [2; 3]%nat /\
   trace r.2 =
     [] ++
     [CallNet (Zeros [2; 4; 4; 4; 1]%nat) false;
      CallPopBatch (LinearInterpolateSampler (ReaderRef 0) (Some "data") 2 10)
                   None;
      CallReshape code [2; 3]%nat;
      CallSharedDecoder real_code;
      CallDecoderMeans (Produced "shared_decoder" [2; 16]%nat)]) /\
  (num_elements [2; 1; 1; 1; 3]%nat <> num_elements [2; 3]%nat ->
   r.1 = inl (ShapeMismatchError [2; 1; 1; 1; 3]%nat [2; 3]%nat) /\
   trace r.2 =
     [] ++
     [CallNet (Zeros [2; 4; 4; 4; 1]%nat) false;
      CallPopBatch (LinearInterpolateSampler (ReaderRef 0) (Some "data") 2 10)
                   None;
      CallReshape code [2; 3]%nat]).
Proof.
  assert (H : set_up INTERPOLATE
                (self (demo_built false "linear_interpolation")))
    by (split; reflexivity).
  split; [exact H | ].
  repeat (split; [reflexivity | ]).
  exact (@interpolate_reshapes_to_latent
           _ demo_collaborators (demo_built false "linear_interpolation") []
           (LinearInterpolateSampler (ReaderRef 0) (Some "data") 2 10) []
           (Produced "feature" [2; 1; 1; 1; 3]%nat)
           (Produced "feature_location" [2; 7]%nat) demo_network
           (Produced "out7" [2; 3]%nat)
           H eq_refl eq_refl eq_refl eq_refl eq_refl eq_refl).
Defined.

(** C9 on the demo configuration, in SAMPLE mode. *)
Lemma sample_mode_reads_nothing_witness :
  mode_of (is_training (self (demo_world false)))
          (Some (demo_task_param "sample")) = Some SAMPLE /\
  exists w1,
    initialise_dataset_loader (Some "data") (Some (demo_task_param "sample"))
                              (demo_world false) = (inr tt, w1) /\
    reader (self w1) = PyEmptyTuple /\
    heap w1 = [] /\
    (forall cs : list Call,
       let w2 := (@do_calls _ demo_collaborators cs w1).2 in
       reader (self w2) = PyEmptyTuple /\
       heap w2 = [] /\
       exists evs, trace w2 = [] ++ evs /\
                   forallb (fun e => negb (reads_data e)) evs = true) /\
    (forall (w2 : @World string) n latent oc p,
       set_up SAMPLE (self w2) ->
       net (self w2) = Some n ->
       outputs_collector w2 = Some oc ->
       autoencoder_param (self w2) = Some p ->
       let dummy_image :=
         Zeros ([batch_size (net_param (self w2))] ++
                spatial_window_size (action_param (self w2)) ++ [1%nat]) in
       last (@net_call _ demo_collaborators n dummy_image false)
         = Some latent ->
       let noise :=
         RandomNormal (get_shape latent) 0%float (noise_stddev p) float32 in
       exists w3,
         @connect_data_and_network _ demo_collaborators w2 = (inr tt, w3) /\
         get_shape noise = get_shape latent /\
         trace w3 =
           trace w2 ++
           [CallNet dummy_image false;
            CallRandomNormal (get_shape latent) (noise_stddev p);
            CallSharedDecoder noise;
            CallDecoderMeans
              (@shared_decoder _ demo_collaborators n noise false)] /\
         outputs_collector w3 =
           Some (oc ++
                 [console (@decoder_means _ demo_collaborators n
                             (@shared_decoder _ demo_collaborators
                                n noise false)
                             false) "generated_image"]) /\
         output_decoder (self w3) =
           Some (WindowAsImageAggregator
                   PyNone (save_seg_dir (action_param (self w2)))) /\
         reader (self w3) = reader (self w2) /\
         heap w3 = heap w2).
Proof.
  split; [reflexivity | ].
  exact (@sample_mode_reads_nothing
           _ demo_collaborators (demo_world false) (Some "data")
           (Some (demo_task_param "sample")) eq_refl).
Defined.

(** * The demo application, step by step *)

(** Training: one reader over the image channel, initialised and bound
    with the flip, the scaling and the rotation, in this order. *)
Example demo_training_reader :
  heap (demo_loaded true "encode") =
  [{| names := ["image"];
      calls :=
        [initialise_reader (Some "data") (Some (demo_task_param "encode"));
         add_preprocessing_layers
           [RandomFlipLayer (AxisTuple [0%Z; 1%Z]);
            RandomSpatialScalingLayer (-10)%float 10%float;
            RandomRotationLayer (-10)%float 10%float]] |}].
Proof. reflexivity. Qed.

(** A scaling option of a single value is not a range: indexing its upper
    bound raises, after the reader is initialised and before any chain is
    bound. *)
Example short_scaling_range_raises :
  let w :=
    {| self :=
         {| is_training := true;
            net_param := demo_net_param "L2" 0.5%float;
            action_param :=
              {| random_flipping_axes := AxisInt (-1);
                 scaling_percentage := [10%float];
                 rotation_angle := [];
                 lr := 0.5%float;
                 loss_type := "VariationalLowerBound";
                 spatial_window_size := [4; 4; 4]%nat;
                 save_seg_dir := "output" |};
            data_param := None; autoencoder_param := None;
            _infer_type := None; reader := PyNone; sampler := None;
            net := None; optimiser := None; output_decoder := None |};
       heap := []; outputs_collector := None; gradients_collector := None;
       trace := [] |} in
  let r := @initialise_dataset_loader string (Some "data") None w in
  r.1 = inl IndexError /\
  heap r.2 = [{| names := ["image"];
                 calls := [initialise_reader (Some "data") None] |}].
Proof. split; reflexivity. Qed.

(** Sampling: the graph is built without any sampler, from noise of the
    shape of the last network output. *)
Example demo_sample_trace :
  sampler (self (demo_sampled false "sample")) = Some [] /\
  trace (demo_connected false "sample") =
  [CallNet (Zeros [2; 4; 4; 4; 1]%nat) false;
   CallRandomNormal [2; 3]%nat 1%float;
   CallSharedDecoder (RandomNormal [2; 3]%nat 0%float 1%float float32);
   CallDecoderMeans (Produced "shared_decoder" [2; 16]%nat)].
Proof. repeat split; reflexivity. Qed.

(** Interpolation: the decoder gets the first two columns of the
    location; the third one, which holds 99, is left out. *)
Example demo_interpolate_decode :
  @interpret_output _ demo_collaborators demo_batch_output
    (demo_connected false "linear_interpolation") =
  (inr (Some true),
   (emit (CallDecodeBatch
            (WindowAsImageAggregator (ReaderRef 0) "output")
            (Arr [Item (SFloat 1%float)])
            (Some (Arr [Arr [Item (SInt 0); Item (SInt 1)];
                        Arr [Item (SInt 1); Item (SInt 2)]])))
         (demo_connected false "linear_interpolation")).2).
Proof. vm_compute. reflexivity. Qed.

(** A feature batch of seven values does not fit the latent code of six
    values. *)
Example reshape_mismatch :
  tf_reshape (Produced "feature" [7]%nat) [2; 3]%nat =
  inl (ShapeMismatchError [7]%nat [2; 3]%nat).
Proof. reflexivity. Qed.

(** * Further behaviour of the methods *)

Section Behaviour.

Context {DataParam : Type} {collaborators : @Collaborators DataParam}.

Implicit Types (w : @World DataParam) (a : @App DataParam) (m : Mode).

Ltac unfold_monad :=
  unfold bind, ret, gets, modify_self, lift, attr, raise, item, last_item,
    dict_item, emit, new_ImageReader.

Ltac unfold_calls :=
  unfold get_sampler, call_net, call_shared_decoder, call_decoder_means,
    call_pop_batch_op, call_random_normal, call_reshape, call_decode_batch,
    add_output, add_gradients, tower_id, bind, ret, gets, modify_self, lift,
    attr, raise, emit.

Ltac open_world w :=
  let a := fresh "a" in
  destruct w as [a ? ? ? ?]; destruct a; cbn in *.

(** ** Set-up *)

Lemma mode_of_none (p : TaskParam) :
  mode_of false (Some p) = None ->
  inference_type p ∉ SUPPORTED_INFERENCE.
Proof.
  unfold mode_of. cbv zeta. intros H Hin.
  apply supported_inference_spec in Hin.
  destruct Hin as [E | [E | [E | E]]]; rewrite E in H; discriminate H.
Qed.

(** X1. [initialise_dataset_loader] never touches the reader objects that
    exist already: whatever its arguments and its outcome, the store
    afterwards is the old store followed by at most one new reader. *)
Theorem initialise_dataset_loader_keeps_store w dp tp :
  let r := initialise_dataset_loader dp tp w in
  exists new, heap r.2 = heap w ++ new /\ (length new <= 1)%nat.
Proof.
  open_world w.
  destruct is_training0.
  - unfold initialise_dataset_loader. unfold_monad. cbn.
    rewrite call_reader_fresh. cbn.
    destruct (flip_axes_ne_minus_one _);
      destruct (scaling_percentage _) as [ | ? [ | ? ?]];
      destruct (rotation_angle _) as [ | ? [ | ? ?]]; cbn;
      rewrite ?call_reader_fresh; cbn;
      eexists; (split; [reflexivity | cbn; lia]).
  - destruct tp as [p | ].
    + destruct (decide (inference_type p ∈ SUPPORTED_INFERENCE)) as [Hin | Hn].
      * pose proof (look_up_supported _ Hin) as Hl.
        apply supported_inference_spec in Hin.
        unfold initialise_dataset_loader. unfold_monad. cbn.
        rewrite Hl.
        destruct Hin as [E | [E | [E | E]]]; rewrite E; cbn;
          rewrite ?call_reader_fresh; cbn; rewrite ?call_reader_fresh; cbn.
        1, 2, 4: eexists; (split; [reflexivity | cbn; lia]).
        exists []. rewrite app_nil_r. split; [reflexivity | cbn; lia].
      * apply look_up_unsupported in Hn.
        unfold initialise_dataset_loader. unfold_monad. cbn.
        rewrite Hn. cbn. exists []. rewrite app_nil_r.
        split; [reflexivity | cbn; lia].
    + unfold initialise_dataset_loader. unfold_monad. cbn.
      exists []. rewrite app_nil_r. split; [reflexivity | cbn; lia].
Qed.

(** X2. In training the set-up validates nothing of the task
    configuration: it fails only on a scaling or rotation option of a
    single value, with [IndexError], and then leaves a reader that is
    built and initialised but has no preprocessing chain bound. *)
Theorem training_set_up_outcome w dp tp :
  is_training (self w) = true ->
  let r := initialise_dataset_loader dp tp w in
  let ap := action_param (self w) in
  reader (self r.2) = ReaderRef (length (heap w)) /\
  _infer_type (self r.2) = Some None /\
  if is_range (scaling_percentage ap) && is_range (rotation_angle ap)
  then r.1 = inr tt
  else r.1 = inl IndexError /\
       heap r.2 = heap w ++ [{| names := ["image"];
                                calls := [initialise_reader dp tp] |}].
Proof.
  intros Ht. open_world w. subst.
  unfold initialise_dataset_loader. unfold_monad. cbn.
  rewrite call_reader_fresh. cbn.
  destruct (flip_axes_ne_minus_one _);
    destruct (scaling_percentage _) as [ | ? [ | ? ?]];
    destruct (rotation_angle _) as [ | ? [ | ? ?]]; cbn;
    rewrite ?call_reader_fresh; cbn; repeat split; reflexivity.
Qed.

(** X3. Without training, a set-up that has no task configuration or an
    unsupported inference type raises ([AttributeError], respectively the
    configuration error) with the readers and the recorded inference type
    as before, yet with the two configurations already stored. *)
Theorem inference_set_up_failure w dp tp :
  is_training (self w) = false ->
  mode_of false tp = None ->
  let r := initialise_dataset_loader dp tp w in
  r.1 = inl (match tp with
             | None => AttributeError "inference_type"
             | Some p => ConfigurationError (inference_type p)
             end) /\
  heap r.2 = heap w /\
  reader (self r.2) = reader (self w) /\
  _infer_type (self r.2) = _infer_type (self w) /\
  data_param (self r.2) = dp /\
  autoencoder_param (self r.2) = tp.
Proof.
  intros Ht Hm. open_world w. subst.
  destruct tp as [p | ].
  - apply mode_of_none, look_up_unsupported in Hm.
    unfold initialise_dataset_loader. unfold_monad. cbn.
    rewrite Hm. cbn. repeat split; reflexivity.
  - unfold initialise_dataset_loader. unfold_monad. cbn.
    repeat split; reflexivity.
Qed.

(** ** Samplers *)

(** X4. A successful [initialise_sampler] leaves at most one sampler,
    built over the current reader, and running it again changes nothing:
    samplers do not pile up. *)
Theorem initialise_sampler_idempotent w w1 :
  initialise_sampler w = (inr tt, w1) ->
  (exists l, sampler (self w1) = Some l /\ (length l <= 1)%nat /\
             forall s, s ∈ l -> sampler_reader s = reader (self w)) /\
  initialise_sampler w1 = (inr tt, w1).
Proof.
  open_world w.
  unfold initialise_sampler, append_sampler. unfold_monad. cbn.
  destruct is_training0; cbn.
  - intros H. injection H as <-. cbn. split; [ | reflexivity].
    eexists. split; [reflexivity | ]. split; [cbn; lia | ].
    intros s Hs. apply list_elem_of_singleton in Hs. subst s. reflexivity.
  - destruct _infer_type0 as [it | ]; cbn; [ | discriminate].
    destruct (py_in it _) eqn:E1; cbn.
    + intros H. injection H as <-. cbn. rewrite E1. cbn.
      split; [ | reflexivity].
      eexists. split; [reflexivity | ]. split; [cbn; lia | ].
      intros s Hs. apply list_elem_of_singleton in Hs. subst s. reflexivity.
    + destruct (py_eq it _) eqn:E2; cbn.
      * destruct autoencoder_param0 as [p | ]; cbn; [ | discriminate].
        intros H. injection H as <-. cbn. rewrite E1, E2. cbn.
        split; [ | reflexivity].
        eexists. split; [reflexivity | ]. split; [cbn; lia | ].
        intros s Hs. apply list_elem_of_singleton in Hs. subst s.
        reflexivity.
      * intros H. injection H as <-. cbn. rewrite E1, E2. cbn.
        split; [ | reflexivity].
        eexists. split; [reflexivity | ]. split; [cbn; lia | ].
        intros s Hs. apply elem_of_nil in Hs. contradiction.
Qed.

(** X5. [_infer_type] is assigned by [initialise_dataset_loader] only: on
    an application that is not training and never went through it,
    [initialise_sampler] raises [AttributeError], after it has already
    emptied the sampler list. *)
Theorem initialise_sampler_before_set_up w :
  is_training (self w) = false ->
  _infer_type (self w) = None ->
  let r := initialise_sampler w in
  r.1 = inl (AttributeError "_infer_type") /\
  sampler (self r.2) = Some [] /\
  reader (self r.2) = reader (self w) /\
  heap r.2 = heap w.
Proof.
  intros Ht Hi. open_world w. subst.
  unfold initialise_sampler. unfold_monad. cbn.
  repeat split; reflexivity.
Qed.

(** ** The network *)


(** ** Building the graph *)

(** X7. In training, what is reported is the data loss alone, under the
    name ['variational_lower_bound'], once for the console and once as a
    scalar summary, whether or not a regularisation loss is added for the
    gradients; the batch is popped for the tower of the gradients
    collector, the network runs in training mode and no aggregator is
    made. *)
Theorem training_reports_data_loss w gc oc s rest img n :
  is_training (self w) = true ->
  sampler (self w) = Some (s :: rest) ->
  gradients_collector w = Some gc ->
  outputs_collector w = Some oc ->
  pop_batch_op s (Some (current_tower_id gc)) !! "image" = Some img ->
  net (self w) = Some n ->
  let data_loss :=
    LossFunction (loss_type (action_param (self w)))
                 (net_call n (Cast img float32) true) in
  exists w',
    connect_data_and_network w = (inr tt, w') /\
    outputs_collector w' =
      Some (oc ++
            [console data_loss "variational_lower_bound";
             {| var := data_loss; var_name := "variational_lower_bound";
                average_over_devices := true;
                summary_type := Some "scalar";
                collection := TF_SUMMARIES |}]) /\
    optimiser (self w') = Some (AdamOptimizer (lr (action_param (self w)))) /\
    output_decoder (self w') = output_decoder (self w) /\
    trace w' = trace w ++ [CallPopBatch s (Some (current_tower_id gc));
                           CallNet (Cast img float32) true].
Proof.
  intros Ht Hs Hg Ho Himg Hn data_loss. subst data_loss.
  open_world w. subst.
  unfold connect_data_and_network. unfold_calls. cbn.
  rewrite (item_some _ _ _ _ (eq_refl : (s :: rest) !! 0%nat = Some s)).
  cbn. rewrite (dict_item_some _ _ _ _ Himg). cbn.
  eexists. split; [reflexivity | ]. cbn.
  rewrite <- !app_assoc. repeat split; reflexivity.
Qed.

(** Every path through a method: case analysis on what it inspects. *)
Ltac step_path :=
  match goal with
  | |- context [match ?x with _ => _ end] =>
      first [ is_var x; destruct x
            | lazymatch x with
              | _ !! _ => destruct x eqn:?
              | last _ => destruct x eqn:?
              | slice_columns _ _ => destruct x eqn:?
              end ]
  | |- context [if ?b then _ else _] => destruct b eqn:?
  end.

Ltac all_paths := unfold tf_reshape; cbn; repeat (step_path; cbn).

Ltac frame_and_trace :=
  repeat (split; [reflexivity | ]);
  first [ exists []; rewrite app_nil_r; split; reflexivity
        | rewrite <- ?app_assoc; eexists; split; reflexivity ].


(** X9. A network that returns too short a tuple (fewer than eight
    outputs in ENCODE, fewer than three in ENCODE_DECODE) makes the step
    raise [IndexError] after the location has been declared and before
    any aggregator is made. *)
Theorem short_network_output_raises m w oc s rest img loc n :
  set_up m (self w) ->
  m = ENCODE \/ m = ENCODE_DECODE ->
  sampler (self w) = Some (s :: rest) ->
  outputs_collector w = Some oc ->
  pop_batch_op s None !! "image" = Some img ->
  pop_batch_op s None !! "image_location" = Some loc ->
  net (self w) = Some n ->
  net_call n (Cast img float32) false
    !! (match m with ENCODE => 7 | _ => 2 end)%nat = None ->
  let r := connect_data_and_network w in
  r.1 = inl IndexError /\
  outputs_collector r.2 = Some (oc ++ [console loc "location"]) /\
  output_decoder (self r.2) = output_decoder (self w).
Proof.
  intros Hs Hm Hsam Ho Himg Hloc Hn Hshort.
  apply set_up_inv in Hs. destruct Hs as [Hi Hs].
  open_world w. subst.
  destruct Hm as [-> | ->]; destruct Hs as (-> & p & -> & Hp);
    unfold connect_data_and_network; unfold_calls; cbn;
    rewrite (item_some _ _ _ _ (eq_refl : (s :: rest) !! 0%nat = Some s));
    cbn; rewrite (dict_item_some _ _ _ _ Himg); cbn;
    rewrite (dict_item_some _ _ _ _ Hloc); cbn;
    unfold item; rewrite Hshort; cbn; repeat split; reflexivity.
Qed.

(** X10. Without training, [connect_data_and_network] raises
    [NotImplementedError] exactly when the recorded inference type is none
    of the four it has a branch for; after a set-up, which records a
    supported type, this never happens. *)
Theorem not_implemented_iff_no_branch w (it : option string) :
  is_training (self w) = false ->
  _infer_type (self w) = Some it ->
  (connect_data_and_network w).1 = inl NotImplementedError <->
  has_inference_branch it = false.
Proof.
  intros Ht Hi. open_world w. subst.
  unfold has_inference_branch.
  unfold connect_data_and_network. unfold_calls.
  unfold item, last_item, dict_item, ret, raise.
  cbn.
  destruct (py_in it _) eqn:E1; cbn.
  - all_paths; split; discriminate.
  - destruct (py_eq it "sample") eqn:E2; cbn.
    + all_paths; split; discriminate.
    + destruct (py_eq it "linear_interpolation") eqn:E3; cbn.
      * all_paths; split; discriminate.
      * split; reflexivity.
Qed.

(** ** Decoding *)

(** X11. Every call of [interpret_output] ends in one of three ways: in
    training it returns [True] and does nothing; it raises and leaves the
    world as it was; or it makes one [decode_batch] call on the
    application's own aggregator and returns its result.  It never falls
    off its end. *)
Theorem interpret_output_outcomes w (batch_output : gmap string NdArray) :
  let r := interpret_output batch_output w in
  (is_training (self w) = true /\ r = (inr (Some true), w)) \/
  (is_training (self w) = false /\ exists e, r = (inl e, w)) \/
  (is_training (self w) = false /\
   exists agg artifact location,
     output_decoder (self w) = Some agg /\
     r = (inr (Some (decode_batch agg artifact location)),
          (emit (CallDecodeBatch agg artifact location) w).2)).
Proof.
  open_world w.
  destruct is_training0; [left; split; reflexivity | right].
  destruct autoencoder_param0 as [p | ];
    [ | left; split; [reflexivity | eexists; reflexivity]].
  unfold interpret_output. unfold_calls. unfold dict_item, ret, raise. cbn.
  destruct (decide (inference_type p ∈ SUPPORTED_INFERENCE)) as [Hin | Hn].
  - rewrite (look_up_supported _ Hin).
    apply supported_inference_spec in Hin.
    destruct Hin as [E | [E | [E | E]]]; rewrite E; all_paths;
      first [ left; split; [reflexivity | eexists; reflexivity]
            | right; split; [reflexivity | ];
              do 3 eexists; split; reflexivity ].
  - rewrite (look_up_unsupported _ Hn). cbn.
    left. split; [reflexivity | eexists; reflexivity].
Qed.

Lemma prefix_rows (k : nat) (rows1 rows2 : list (list NdArray)) :
  take k <$> rows1 = take k <$> rows2 ->
  (fun r => Arr (take k r)) <$> rows1 = (fun r => Arr (take k r)) <$> rows2.
Proof.
  intros H.
  change (fun r => Arr (take k r)) with (Arr ∘ take k).
  rewrite !list_fmap_compose, H. reflexivity.
Qed.

(** X12. What is decoded depends on the leading columns of the location
    only: two fetched batches with the same artifact whose locations agree
    on the first column (ENCODE, ENCODE_DECODE), respectively on the first
    two (INTERPOLATE), are interpreted alike, whatever the other columns
    hold. *)
Theorem interpret_output_ignores_other_columns
    m w (batch1 batch2 : gmap string NdArray) key k
    (rows1 rows2 : list (list NdArray)) :
  mode_of (is_training (self w)) (autoencoder_param (self w)) = Some m ->
  decode_plan m = Some (key, Some k) ->
  batch1 !! key = batch2 !! key ->
  batch1 !! "location" = Some (Arr (Arr <$> rows1)) ->
  batch2 !! "location" = Some (Arr (Arr <$> rows2)) ->
  take k <$> rows1 = take k <$> rows2 ->
  interpret_output batch1 w = interpret_output batch2 w.
Proof.
  intros Hm Hplan Hkey Hl1 Hl2 Hrows.
  apply prefix_rows in Hrows.
  apply mode_of_inv in Hm.
  destruct m; try discriminate Hplan;
    destruct Hm as (Ht & p & Hp & Hname);
    injection Hplan as <- <-; injection Hname as Hname;
    open_world w; subst;
    unfold interpret_output; unfold_calls; cbn.
  - rewrite (look_up_infer_type ENCODE) by (cbn; congruence).
    rewrite Hname. cbn.
    destruct output_decoder0 as [agg | ]; cbn; [ | reflexivity].
    unfold dict_item. rewrite Hkey, Hl1, Hl2.
    destruct (batch2 !! "embedded"); cbn; [ | reflexivity].
    rewrite !slice_columns_matrix, Hrows. reflexivity.
  - rewrite (look_up_infer_type ENCODE_DECODE) by (cbn; congruence).
    rewrite Hname. cbn.
    destruct output_decoder0 as [agg | ]; cbn; [ | reflexivity].
    unfold dict_item. rewrite Hkey, Hl1, Hl2.
    destruct (batch2 !! "generated_image"); cbn; [ | reflexivity].
    rewrite !slice_columns_matrix, Hrows. reflexivity.
  - rewrite (look_up_infer_type INTERPOLATE) by (cbn; congruence).
    rewrite Hname. cbn.
    destruct output_decoder0 as [agg | ]; cbn; [ | reflexivity].
    unfold dict_item. rewrite Hkey, Hl1, Hl2.
    destruct (batch2 !! "generated_image"); cbn; [ | reflexivity].
    rewrite !slice_columns_matrix, Hrows. reflexivity.
Qed.

(** X13. In an inference mode the aggregator is looked up before the
    fetched batch is: without one (no graph built yet) the call raises
    [AttributeError] whatever the batch holds; with one, a batch without
    the artifact of the mode raises [KeyError] on its name, and a batch
    with the artifact but without a location raises [KeyError] on
    ['location'] where the mode passes one.  No decode call is made. *)
Theorem interpret_output_missing_parts
    m w (batch_output : gmap string NdArray) key columns :
  mode_of (is_training (self w)) (autoencoder_param (self w)) = Some m ->
  decode_plan m = Some (key, columns) ->
  let r := interpret_output batch_output w in
  (output_decoder (self w) = None ->
   r = (inl (AttributeError "decode_batch"), w)) /\
  (is_Some (output_decoder (self w)) ->
   batch_output !! key = None ->
   r = (inl (KeyError key), w)) /\
  (is_Some (output_decoder (self w)) ->
   is_Some (batch_output !! key) ->
   is_Some columns ->
   batch_output !! "location" = None ->
   r = (inl (KeyError "location"), w)).
Proof.
  intros Hm Hplan.
  apply mode_of_inv in Hm.
  destruct m; try discriminate Hplan;
    destruct Hm as (Ht & p & Hp & Hname);
    injection Hplan as <- <-; injection Hname as Hname;
    open_world w; subst;
    unfold interpret_output; unfold_calls; unfold dict_item; cbn.
  - rewrite (look_up_infer_type ENCODE) by (cbn; congruence).
    rewrite Hname. cbn.
    split; [intros ->; reflexivity | ].
    split; [intros [agg ->] ->; reflexivity | ].
    intros [agg ->] [art ->] _ ->. reflexivity.
  - rewrite (look_up_infer_type ENCODE_DECODE) by (cbn; congruence).
    rewrite Hname. cbn.
    split; [intros ->; reflexivity | ].
    split; [intros [agg ->] ->; reflexivity | ].
    intros [agg ->] [art ->] _ ->. reflexivity.
  - rewrite (look_up_infer_type SAMPLE) by (cbn; congruence).
    rewrite Hname. cbn.
    split; [intros ->; reflexivity | ].
    split; [intros [agg ->] ->; reflexivity | ].
    intros _ _ [k Hk]. discriminate Hk.
  - rewrite (look_up_infer_type INTERPOLATE) by (cbn; congruence).
    rewrite Hname. cbn.
    split; [intros ->; reflexivity | ].
    split; [intros [agg ->] ->; reflexivity | ].
    intros [agg ->] [art ->] _ ->. reflexivity.
Qed.

(** X14. On a just constructed application the two configurations are
    empty: [interpret_output] returns [True] if it is a training
    application and raises [AttributeError] otherwise, before any
    validation of an inference type. *)
Theorem interpret_output_after_init
    w (np : NetParam) (ap : ActionParam) (training : bool)
    (batch_output : gmap string NdArray) :
  let w0 := (__init__ np ap training w).2 in
  (__init__ np ap training w).1 = inr tt /\
  data_param (self w0) = None /\
  autoencoder_param (self w0) = None /\
  interpret_output batch_output w0 =
    (if training then inr (Some true)
     else inl (AttributeError "inference_type"), w0).
Proof.
  open_world w. unfold __init__, interpret_output. unfold_calls. cbn.
  destruct training; repeat split; reflexivity.
Qed.

(** ** How the steps compose *)

(** X15. In every mode that reads data, set-up followed by
    [initialise_sampler] yields exactly one sampler, and it is built over
    the very reader object that the set-up has just built over the mode's
    channel and initialised. *)
Theorem sampler_over_the_fresh_reader m w dp tp :
  mode_of (is_training (self w)) tp = Some m ->
  m <> SAMPLE ->
  (m = TRAIN ->
   is_range (scaling_percentage (action_param (self w))) &&
   is_range (rotation_angle (action_param (self w))) = true) ->
  exists w1 w2 smp obj,
    initialise_dataset_loader dp tp w = (inr tt, w1) /\
    initialise_sampler w1 = (inr tt, w2) /\
    sampler (self w2) = Some [smp] /\
    sampler_reader smp = ReaderRef (length (heap w)) /\
    reader (self w2) = ReaderRef (length (heap w)) /\
    heap w2 !! length (heap w) = Some obj /\
    names obj = mode_channels m /\
    calls obj !! 0%nat = Some (initialise_reader dp tp) /\
    length (calls obj) = 2%nat.
Proof.
  intros Hm Hns Hr. apply mode_of_inv in Hm.
  open_world w.
  destruct m; [ | destruct Hm as (-> & p & -> & Hp) ..];
    try (exfalso; apply Hns; reflexivity).
  - subst. specialize (Hr eq_refl). apply andb_true_iff in Hr.
    destruct Hr as [Hs Hr].
    unfold initialise_dataset_loader, initialise_sampler, append_sampler.
    unfold_monad. cbn.
    rewrite call_reader_fresh. cbn.
    destruct (flip_axes_ne_minus_one _);
      destruct (scaling_percentage _) as [ | ? [ | ? ?]]; try discriminate Hs;
      destruct (rotation_angle _) as [ | ? [ | ? ?]]; try discriminate Hr;
      cbn; rewrite call_reader_fresh; cbn;
      do 4 eexists; (split; [reflexivity | ]); cbn;
      (split; [reflexivity | ]); cbn; (split; [reflexivity | ]);
      (split; [reflexivity | ]); (split; [reflexivity | ]);
      (split; [apply list_lookup_middle; reflexivity | ]);
      repeat split; reflexivity.
  - injection Hp as Hp.
    unfold initialise_dataset_loader, initialise_sampler, append_sampler.
    unfold_monad. cbn.
    rewrite (look_up_infer_type ENCODE) by (cbn; congruence).
    rewrite Hp. cbn. rewrite call_reader_fresh. cbn.
    rewrite call_reader_fresh. cbn.
    do 4 eexists. split; [reflexivity | ]. cbn.
    split; [reflexivity | ]. cbn. split; [reflexivity | ].
    split; [reflexivity | ]. split; [reflexivity | ].
    split; [apply list_lookup_middle; reflexivity | ].
    repeat split; reflexivity.
  - injection Hp as Hp.
    unfold initialise_dataset_loader, initialise_sampler, append_sampler.
    unfold_monad. cbn.
    rewrite (look_up_infer_type ENCODE_DECODE) by (cbn; congruence).
    rewrite Hp. cbn. rewrite call_reader_fresh. cbn.
    rewrite call_reader_fresh. cbn.
    do 4 eexists. split; [reflexivity | ]. cbn.
    split; [reflexivity | ]. cbn. split; [reflexivity | ].
    split; [reflexivity | ]. split; [reflexivity | ].
    split; [apply list_lookup_middle; reflexivity | ].
    repeat split; reflexivity.
  - injection Hp as Hp.
    unfold initialise_dataset_loader, initialise_sampler, append_sampler.
    unfold_monad. cbn.
    rewrite (look_up_infer_type INTERPOLATE) by (cbn; congruence).
    rewrite Hp. cbn. rewrite call_reader_fresh. cbn.
    rewrite call_reader_fresh. cbn.
    do 4 eexists. split; [reflexivity | ]. cbn.
    split; [reflexivity | ]. cbn. split; [reflexivity | ].
    split; [reflexivity | ]. split; [reflexivity | ].
    split; [apply list_lookup_middle; reflexivity | ].
    repeat split; reflexivity.
Qed.

(** The steps as equations on worlds, to chain them. *)

Lemma bind_ok {A B : Type} (c : @M DataParam A) (f : A -> @M DataParam B)
    w (x : A) w' res :
  c w = (inr x, w') -> f x w' = res -> bind c f w = res.
Proof. intros H <-. unfold bind. rewrite H. reflexivity. Qed.

Lemma image_modes (s : string) :
  py_in (Some s) ["encode"; "encode-decode"] = true ->
  (s = "encode" \/ s = "encode-decode") /\
  py_eq (Some s) "sample" = false /\
  py_eq (Some s) "linear_interpolation" = false.
Proof.
  cbn. destruct (String.eqb_spec s "encode") as [-> | _]; [intros _; tauto | ].
  destruct (String.eqb_spec s "encode-decode") as [-> | _];
    [intros _; tauto | discriminate].
Qed.

Lemma initialise_dataset_loader_image w dp (p : TaskParam) :
  is_training (self w) = false ->
  py_in (Some (inference_type p)) ["encode"; "encode-decode"] = true ->
  initialise_dataset_loader dp (Some p) w =
    (inr tt,
     {| self := set_reader (ReaderRef (length (heap w)))
                  (set_infer_type (Some (inference_type p))
                     (set_autoencoder_param (Some p)
                        (set_data_param dp (self w))));
        heap := heap w ++
                [{| names := ["image"];
                    calls := [initialise_reader dp (Some p);
                              add_preprocessing_layers []] |}];
        outputs_collector := outputs_collector w;
        gradients_collector := gradients_collector w;
        trace := trace w |}).
Proof.
  intros Ht Hin. pose proof (image_modes _ Hin) as (Hs & _ & _).
  pose proof (look_up_supported (inference_type p)) as Hl.
  rewrite supported_inference_spec in Hl.
  open_world w. subst.
  unfold initialise_dataset_loader. unfold_monad. cbn.
  rewrite Hl by tauto. cbn. rewrite Hin. cbn.
  rewrite call_reader_fresh. cbn. rewrite call_reader_fresh. reflexivity.
Qed.

Lemma initialise_sampler_resize w (it : option string) :
  is_training (self w) = false ->
  _infer_type (self w) = Some it ->
  py_in it ["encode"; "encode-decode"] = true ->
  initialise_sampler w =
    (inr tt,
     (modify_self
        (set_sampler [ResizeSampler (reader (self w)) (data_param (self w))
                                    (batch_size (net_param (self w)))
                                    1 false]) w).2).
Proof.
  intros Ht Hi Hin. open_world w. subst.
  unfold initialise_sampler, append_sampler. unfold_monad. cbn.
  rewrite Hin. reflexivity.
Qed.

Lemma initialise_sampler_sample w :
  is_training (self w) = false ->
  _infer_type (self w) = Some (Some "sample") ->
  initialise_sampler w = (inr tt, (modify_self (set_sampler []) w).2).
Proof.
  intros Ht Hi. open_world w. subst. reflexivity.
Qed.

Lemma initialise_network_builds w (n : Network) :
  net (self (initialise_network w).2) = Some n ->
  initialise_network w = (inr tt, (modify_self (set_net n) w).2).
Proof.
  open_world w. unfold initialise_network. unfold_monad. cbn.
  destruct (_ && _); [ | destruct (_ && _)]; cbn;
    intros H; injection H as <-; reflexivity.
Qed.

Lemma mode_of_name m (p : TaskParam) :
  infer_type_of m = Some (inference_type p) ->
  mode_of false (Some p) = Some m.
Proof.
  intros H. unfold mode_of. cbv zeta.
  destruct m; cbn in H; try discriminate H; injection H as <-; reflexivity.
Qed.

Lemma initialise_network_net w1 w2 :
  net_param (self w1) = net_param (self w2) ->
  net (self (initialise_network w1).2) = net (self (initialise_network w2).2).
Proof.
  intros H. open_world w1. open_world w2. subst.
  unfold initialise_network. unfold_monad. cbn.
  destruct (_ && _); [ | destruct (_ && _)]; reflexivity.
Qed.

Lemma connect_sample w (p : TaskParam) oc n latent :
  is_training (self w) = false ->
  _infer_type (self w) = Some (Some "sample") ->
  autoencoder_param (self w) = Some p ->
  outputs_collector w = Some oc ->
  net (self w) = Some n ->
  last (net_call n
          (Zeros ([batch_size (net_param (self w))] ++
                  spatial_window_size (action_param (self w)) ++ [1%nat]))
          false) = Some latent ->
  connect_data_and_network w =
    (inr tt,
     {| self := set_output_decoder
                  (WindowAsImageAggregator
                     PyNone (save_seg_dir (action_param (self w))))
                  (self w);
        heap := heap w;
        outputs_collector :=
          Some (oc ++
                [console
                   (decoder_means n
                      (shared_decoder n
                         (RandomNormal (get_shape latent) 0%float
                                       (noise_stddev p) float32) false)
                      false) "generated_image"]);
        gradients_collector := gradients_collector w;
        trace :=
          trace w ++
          [CallNet (Zeros ([batch_size (net_param (self w))] ++
                           spatial_window_size (action_param (self w)) ++
                           [1%nat])) false;
           CallRandomNormal (get_shape latent) (noise_stddev p);
           CallSharedDecoder
             (RandomNormal (get_shape latent) 0%float (noise_stddev p)
                           float32);
           CallDecoderMeans
             (shared_decoder n
                (RandomNormal (get_shape latent) 0%float (noise_stddev p)
                              float32) false)] |}).
Proof.
  intros Ht Hi Hp Ho Hn Hlast. open_world w. subst.
  unfold connect_data_and_network. unfold_calls. cbn.
  rewrite (last_item_some _ _ _ Hlast). cbn.
  rewrite <- !app_assoc. reflexivity.
Qed.

Lemma connect_image m w oc s rest img loc n out :
  m = ENCODE \/ m = ENCODE_DECODE ->
  is_training (self w) = false ->
  _infer_type (self w) = Some (infer_type_of m) ->
  sampler (self w) = Some (s :: rest) ->
  outputs_collector w = Some oc ->
  pop_batch_op s None !! "image" = Some img ->
  pop_batch_op s None !! "image_location" = Some loc ->
  net (self w) = Some n ->
  net_call n (Cast img float32) false
    !! (match m with ENCODE => 7 | _ => 2 end)%nat = Some out ->
  connect_data_and_network w =
    (inr tt,
     {| self := set_output_decoder
                  (WindowAsImageAggregator
                     (reader (self w))
                     (save_seg_dir (action_param (self w))))
                  (self w);
        heap := heap w;
        outputs_collector :=
          Some (oc ++
                [console loc "location";
                 console out (match m with
                              | ENCODE => "embedded"
                              | _ => "generated_image"
                              end)]);
        gradients_collector := gradients_collector w;
        trace := trace w ++ [CallPopBatch s None;
                             CallNet (Cast img float32) false] |}).
Proof.
  intros Hm Ht Hi Hs Ho Himg Hloc Hn Hout. open_world w. subst.
  destruct Hm as [-> | ->];
    unfold connect_data_and_network; unfold_calls; cbn;
    rewrite (item_some _ _ _ _ (eq_refl : (s :: rest) !! 0%nat = Some s));
    cbn; rewrite (dict_item_some _ _ _ _ Himg); cbn;
    rewrite (dict_item_some _ _ _ _ Hloc); cbn;
    rewrite (item_some _ _ _ _ Hout); cbn;
    rewrite <- !app_assoc; reflexivity.
Qed.

Lemma interpret_output_decodes m w (batch_output : gmap string NdArray)
    key columns agg artifact :
  mode_of (is_training (self w)) (autoencoder_param (self w)) = Some m ->
  decode_plan m = Some (key, columns) ->
  output_decoder (self w) = Some agg ->
  batch_output !! key = Some artifact ->
  forall location,
    match columns with
    | None => location = None
    | Some k =>
        exists rows,
          batch_output !! "location" = Some (Arr (Arr <$> rows)) /\
          location = Some (Arr ((fun r => Arr (take k r)) <$> rows))
    end ->
    interpret_output batch_output w =
      (inr (Some (decode_batch agg artifact location)),
       (emit (CallDecodeBatch agg artifact location) w).2).
Proof.
  intros Hm Hplan Hd Ha location Hloc.
  apply mode_of_inv in Hm.
  destruct m; try discriminate Hplan;
    destruct Hm as (Ht & p & Hp & Hname);
    injection Hplan as <- <-; injection Hname as Hname;
    [ destruct Hloc as (rows & Hl & ->)
    | destruct Hloc as (rows & Hl & ->)
    | subst location
    | destruct Hloc as (rows & Hl & ->) ];
    open_world w; subst;
    unfold interpret_output; unfold_calls; cbn.
  - rewrite (look_up_infer_type ENCODE) by (cbn; congruence).
    rewrite Hname. cbn.
    rewrite (dict_item_some _ _ _ _ Ha). cbn.
    rewrite (dict_item_some _ _ _ _ Hl). cbn.
    rewrite slice_columns_matrix. reflexivity.
  - rewrite (look_up_infer_type ENCODE_DECODE) by (cbn; congruence).
    rewrite Hname. cbn.
    rewrite (dict_item_some _ _ _ _ Ha). cbn.
    rewrite (dict_item_some _ _ _ _ Hl). cbn.
    rewrite slice_columns_matrix. reflexivity.
  - rewrite (look_up_infer_type SAMPLE) by (cbn; congruence).
    rewrite Hname. cbn.
    rewrite (dict_item_some _ _ _ _ Ha). reflexivity.
  - rewrite (look_up_infer_type INTERPOLATE) by (cbn; congruence).
    rewrite Hname. cbn.
    rewrite (dict_item_some _ _ _ _ Ha). cbn.
    rewrite (dict_item_some _ _ _ _ Hl). cbn.
    rewrite slice_columns_matrix. reflexivity.
Qed.

(** X16. A SAMPLE run needs no data: from set-up to the decoding of one
    fetched batch every step succeeds with an empty sampler list and an
    untouched reader store, the only collaborator calls being the dummy
    forward pass, the noise, the two decoder entry points and one
    [decode_batch] without a location on an aggregator without a
    reader. *)
Theorem sample_run w dp (p : TaskParam) oc n latent
    (batch_output : gmap string NdArray) artifact :
  is_training (self w) = false ->
  inference_type p = "sample" ->
  outputs_collector w = Some oc ->
  net (self (initialise_network w).2) = Some n ->
  let dummy_image :=
    Zeros ([batch_size (net_param (self w))] ++
           spatial_window_size (action_param (self w)) ++ [1%nat]) in
  last (net_call n dummy_image false) = Some latent ->
  batch_output !! "generated_image" = Some artifact ->
  let noise :=
    RandomNormal (get_shape latent) 0%float (noise_stddev p) float32 in
  let r := (let* _ := initialise_dataset_loader dp (Some p) in
            do_calls [DoInitialiseSampler; DoInitialiseNetwork;
                      DoConnectDataAndNetwork;
                      DoInterpretOutput batch_output]) w in
  r.1 = inr tt /\
  heap r.2 = heap w /\
  reader (self r.2) = PyEmptyTuple /\
  sampler (self r.2) = Some [] /\
  trace r.2 =
    trace w ++
    [CallNet dummy_image false;
     CallRandomNormal (get_shape latent) (noise_stddev p);
     CallSharedDecoder noise;
     CallDecoderMeans (shared_decoder n noise false);
     CallDecodeBatch
       (WindowAsImageAggregator PyNone
          (save_seg_dir (action_param (self w))))
       artifact None].
Proof.
  intros Ht Hp Ho Hn dummy_image Hlast Ha noise r.
  assert (Hr : r =
    (inr tt,
     (emit (CallDecodeBatch
              (WindowAsImageAggregator
                 PyNone (save_seg_dir (action_param (self w))))
              artifact None)
        {| self :=
             set_output_decoder
               (WindowAsImageAggregator
                  PyNone (save_seg_dir (action_param (self w))))
               (set_net n
                  (set_sampler []
                     (set_reader PyEmptyTuple
                        (set_infer_type (Some "sample")
                           (set_autoencoder_param (Some p)
                              (set_data_param dp (self w)))))));
           heap := heap w;
           outputs_collector :=
             Some (oc ++
                   [console (decoder_means n (shared_decoder n noise false)
                                           false) "generated_image"]);
           gradients_collector := gradients_collector w;
           trace :=
             trace w ++
             [CallNet dummy_image false;
              CallRandomNormal (get_shape latent) (noise_stddev p);
              CallSharedDecoder noise;
              CallDecoderMeans (shared_decoder n noise false)] |}).2)).
  { subst r. eapply bind_ok.
    { apply initialise_dataset_loader_sample; assumption. }
    cbn [do_calls do_call].
    eapply bind_ok.
    { apply initialise_sampler_sample; [exact Ht | reflexivity]. }
    eapply bind_ok.
    { apply initialise_network_builds with (n := n).
      rewrite <- Hn. apply initialise_network_net. reflexivity. }
    eapply bind_ok.
    { eapply connect_sample with (p := p) (oc := oc) (n := n);
        [exact Ht | reflexivity | reflexivity | exact Ho | reflexivity
        | exact Hlast]. }
    eapply bind_ok.
    { eapply bind_ok.
      { eapply (interpret_output_decodes SAMPLE) with (location := None);
          [ change (mode_of (is_training (self w)) (Some p) = Some SAMPLE);
            rewrite Ht; apply mode_of_name; cbn; congruence
          | reflexivity | reflexivity | exact Ha | reflexivity ]. }
      reflexivity. }
    reflexivity. }
  rewrite Hr. cbn. rewrite <- app_assoc. repeat split; reflexivity.
Qed.

(** X17. An ENCODE or ENCODE_DECODE run on one batch: set-up, sampler,
    network, graph and decoding succeed in sequence, and the aggregator
    that decodes the batch holds the same reader object as the sampler
    that produced it; the decoded artifact is the fetched embedding,
    respectively generated image, with the first location column. *)
Theorem encode_run m w dp (p : TaskParam) oc n img loc out
    (batch_output : gmap string NdArray) artifact
    (rows : list (list NdArray)) :
  is_training (self w) = false ->
  m = ENCODE \/ m = ENCODE_DECODE ->
  Some (inference_type p) = infer_type_of m ->
  outputs_collector w = Some oc ->
  net (self (initialise_network w).2) = Some n ->
  let r0 := ReaderRef (length (heap w)) in
  let smp := ResizeSampler r0 dp (batch_size (net_param (self w))) 1 false in
  pop_batch_op smp None !! "image" = Some img ->
  pop_batch_op smp None !! "image_location" = Some loc ->
  net_call n (Cast img float32) false
    !! (match m with ENCODE => 7 | _ => 2 end)%nat = Some out ->
  batch_output !! (match m with
                   | ENCODE => "embedded"
                   | _ => "generated_image"
                   end) = Some artifact ->
  batch_output !! "location" = Some (Arr (Arr <$> rows)) ->
  let r := (let* _ := initialise_dataset_loader dp (Some p) in
            do_calls [DoInitialiseSampler; DoInitialiseNetwork;
                      DoConnectDataAndNetwork;
                      DoInterpretOutput batch_output]) w in
  r.1 = inr tt /\
  sampler (self r.2) = Some [smp] /\
  output_decoder (self r.2) =
    Some (WindowAsImageAggregator
            r0 (save_seg_dir (action_param (self w)))) /\
  outputs_collector r.2 =
    Some (oc ++ [console loc "location";
                 console out (match m with
                              | ENCODE => "embedded"
                              | _ => "generated_image"
                              end)]) /\
  trace r.2 =
    trace w ++
    [CallPopBatch smp None;
     CallNet (Cast img float32) false;
     CallDecodeBatch
       (WindowAsImageAggregator
          r0 (save_seg_dir (action_param (self w))))
       artifact
       (Some (Arr ((fun row => Arr (take 1 row)) <$> rows)))].
Proof.
  intros Ht Hm Hp Ho Hn r0 smp Himg Hloc Hout Ha Hrows r.
  assert (Hin : py_in (Some (inference_type p)) ["encode"; "encode-decode"]
                = true)
    by (destruct Hm as [-> | ->]; cbn in Hp; injection Hp as ->; reflexivity).
  assert (Hmode : mode_of false (Some p) = Some m)
    by (apply mode_of_name; symmetry; exact Hp).
  eassert (Hr : r = (inr tt, _)).
  { subst r. eapply bind_ok.
    { apply initialise_dataset_loader_image; assumption. }
    cbn [do_calls do_call].
    eapply bind_ok.
    { eapply initialise_sampler_resize; [exact Ht | reflexivity | exact Hin]. }
    eapply bind_ok.
    { apply initialise_network_builds with (n := n).
      rewrite <- Hn. apply initialise_network_net. reflexivity. }
    eapply bind_ok.
    { eapply (connect_image m) with (s := smp) (rest := []) (oc := oc);
        [ exact Hm | exact Ht | cbn; rewrite Hp; reflexivity | reflexivity
        | exact Ho | exact Himg | exact Hloc | reflexivity | exact Hout ]. }
    eapply bind_ok.
    { eapply bind_ok.
      { eapply (interpret_output_decodes m)
          with (key := match m with
                       | ENCODE => "embedded"
                       | _ => "generated_image"
                       end)
               (columns := Some 1%nat)
               (location :=
                  Some (Arr ((fun row => Arr (take 1 row)) <$> rows)));
          [ change (mode_of (is_training (self w)) (Some p) = Some m);
            rewrite Ht; exact Hmode
          | destruct Hm as [-> | ->]; reflexivity
          | reflexivity
          | exact Ha
          | exists rows; split; [exact Hrows | reflexivity] ]. }
      reflexivity. }
    reflexivity. }
  rewrite Hr. cbn. rewrite <- app_assoc. repeat split; reflexivity.
Qed.

End Behaviour.

(** X2 on the demo application with a scaling option of one value. *)
Lemma training_set_up_outcome_witness :
  is_training (self demo_short_range_world) = true /\
  let r := initialise_dataset_loader
             (Some "data") None demo_short_range_world in
  reader (self r.2) = ReaderRef 0 /\
  _infer_type (self r.2) = Some None /\
  r.1 = inl IndexError /\
  heap r.2 = [] ++ [{| names := ["image"];
                       calls := [initialise_reader (Some "data") None] |}].
Proof.
  split; [reflexivity | ].
  exact (training_set_up_outcome
           demo_short_range_world (Some "data") None eq_refl).
Defined.

(** X3 on the demo application, set up without a task configuration. *)
Lemma inference_set_up_failure_witness :
  is_training (self (demo_world false)) = false /\
  mode_of false None = None /\
  let r := @initialise_dataset_loader string (Some "data") None
             (demo_world false) in
  r.1 = inl (AttributeError "inference_type") /\
  heap r.2 = heap (demo_world false) /\
  reader (self r.2) = reader (self (demo_world false)) /\
  _infer_type (self r.2) = _infer_type (self (demo_world false)) /\
  data_param (self r.2) = Some "data" /\
  autoencoder_param (self r.2) = None.
Proof.
  split; [reflexivity | ]. split; [reflexivity | ].
  exact (inference_set_up_failure
           (demo_world false) (Some "data") None eq_refl eq_refl).
Defined.

(** X4 on the demo application in ENCODE mode. *)
Lemma initialise_sampler_idempotent_witness :
  initialise_sampler (demo_loaded false "encode") =
    (inr tt, demo_sampled false "encode") /\
  (exists l, sampler (self (demo_sampled false "encode")) = Some l /\
             (length l <= 1)%nat /\
             forall s, s ∈ l ->
                       sampler_reader s =
                       reader (self (demo_loaded false "encode"))) /\
  initialise_sampler (demo_sampled false "encode") =
    (inr tt, demo_sampled false "encode").
Proof.
  assert (H : initialise_sampler (demo_loaded false "encode") =
              (inr tt, demo_sampled false "encode"))
    by (vm_compute; reflexivity).
  split; [exact H | ].
  exact (initialise_sampler_idempotent _ _ H).
Defined.

(** X5 on the demo application before any set-up. *)
Lemma initialise_sampler_before_set_up_witness :
  is_training (self (demo_world false)) = false /\
  _infer_type (self (demo_world false)) = None /\
  let r := initialise_sampler (demo_world false) in
  r.1 = inl (AttributeError "_infer_type") /\
  sampler (self r.2) = Some [] /\
  reader (self r.2) = reader (self (demo_world false)) /\
  heap r.2 = heap (demo_world false).
Proof.
  split; [reflexivity | ]. split; [reflexivity | ].
  exact (initialise_sampler_before_set_up (demo_world false) eq_refl eq_refl).
Defined.

(** X7 on the demo application in training. *)
Lemma training_reports_data_loss_witness :
  is_training (self (demo_built true "encode")) = true /\
  sampler (self (demo_built true "encode")) =
    Some [ResizeSampler (ReaderRef 0) (Some "data") 2 1 true] /\
  gradients_collector (demo_built true "encode") =
    Some {| current_tower_id := 0; gradients := [] |} /\
  outputs_collector (demo_built true "encode") = Some [] /\
  @pop_batch_op _ demo_collaborators
    (ResizeSampler (ReaderRef 0) (Some "data") 2 1 true) (Some 0%nat)
    !! "image" = Some (Produced "image" [2; 4; 4; 4; 1]%nat) /\
  net (self (demo_built true "encode")) = Some demo_network /\
  exists w',
    @connect_data_and_network _ demo_collaborators
      (demo_built true "encode") = (inr tt, w') /\
    outputs_collector w' =
      Some ([] ++
            [console (Produced "loss" []) "variational_lower_bound";
             {| var := Produced "loss" [];
                var_name := "variational_lower_bound";
                average_over_devices := true;
                summary_type := Some "scalar";
                collection := TF_SUMMARIES |}]) /\
    optimiser (self w') = Some (AdamOptimizer 0.5%float) /\
    output_decoder (self w') = None /\
    trace w' =
      [] ++ [CallPopBatch (ResizeSampler (ReaderRef 0) (Some "data") 2 1 true)
                          (Some 0%nat);
             CallNet (Cast (Produced "image" [2; 4; 4; 4; 1]%nat) float32)
                     true].
Proof.
  do 6 (split; [reflexivity | ]).
  exact (@training_reports_data_loss
           _ demo_collaborators (demo_built true "encode")
           {| current_tower_id := 0; gradients := [] |} []
           (ResizeSampler (ReaderRef 0) (Some "data") 2 1 true) []
           (Produced "image" [2; 4; 4; 4; 1]%nat) demo_network
           eq_refl eq_refl eq_refl eq_refl eq_refl eq_refl).
Defined.


(** X9 on the demo application in ENCODE mode, with a network of three
    outputs. *)
Lemma short_network_output_raises_witness :
  set_up ENCODE (self (demo_built false "encode")) /\
  (ENCODE = ENCODE \/ ENCODE = ENCODE_DECODE) /\
  sampler (self (demo_built false "encode")) =
    Some [ResizeSampler (ReaderRef 0) (Some "data") 2 1 false] /\
  outputs_collector (demo_built false "encode") = Some [] /\
  @pop_batch_op _ short_collaborators
    (ResizeSampler (ReaderRef 0) (Some "data") 2 1 false) None
    !! "image" = Some (Produced "image" [2; 4; 4; 4; 1]%nat) /\
  @pop_batch_op _ short_collaborators
    (ResizeSampler (ReaderRef 0) (Some "data") 2 1 false) None
    !! "image_location" = Some (Produced "image_location" [2; 7]%nat) /\
  net (self (demo_built false "encode")) = Some demo_network /\
  take 3 demo_net_output !! 7%nat = None /\
  let r := @connect_data_and_network _ short_collaborators
             (demo_built false "encode") in
  r.1 = inl IndexError /\
  outputs_collector r.2 =
    Some ([] ++ [console (Produced "image_location" [2; 7]%nat)
                         "location"]) /\
  output_decoder (self r.2) = None.
Proof.
  assert (H : set_up ENCODE (self (demo_built false "encode")))
    by (split; reflexivity).
  split; [exact H | ]. split; [left; reflexivity | ].
  do 6 (split; [reflexivity | ]).
  exact (@short_network_output_raises
           _ short_collaborators ENCODE (demo_built false "encode") []
           (ResizeSampler (ReaderRef 0) (Some "data") 2 1 false) []
           (Produced "image" [2; 4; 4; 4; 1]%nat)
           (Produced "image_location" [2; 7]%nat) demo_network
           H (or_introl eq_refl) eq_refl eq_refl eq_refl eq_refl eq_refl
           eq_refl).
Defined.

(** X10 on the demo application with [None] as recorded inference type:
    no branch, hence [NotImplementedError]. *)
Lemma not_implemented_iff_no_branch_witness :
  is_training (self demo_unset_world) = false /\
  _infer_type (self demo_unset_world) = Some None /\
  ((@connect_data_and_network _ demo_collaborators demo_unset_world).1 =
     inl NotImplementedError <->
   has_inference_branch None = false).
Proof.
  split; [reflexivity | ]. split; [reflexivity | ].
  exact (@not_implemented_iff_no_branch
           _ demo_collaborators demo_unset_world None eq_refl eq_refl).
Defined.

(** X12 on the demo application in INTERPOLATE mode: two batches that
    differ in the third location column. *)
Lemma interpret_output_ignores_other_columns_witness :
  mode_of (is_training (self (demo_connected false "linear_interpolation")))
          (autoencoder_param
             (self (demo_connected false "linear_interpolation")))
    = Some INTERPOLATE /\
  decode_plan INTERPOLATE = Some ("generated_image", Some 2%nat) /\
  demo_batch_output !! "generated_image" =
    demo_batch_output' !! "generated_image" /\
  demo_batch_output !! "location" =
    Some (Arr (Arr <$> demo_location_rows)) /\
  demo_batch_output' !! "location" =
    Some (Arr (Arr <$> [[Item (SInt 0); Item (SInt 1); Item (SInt 7)];
                        [Item (SInt 1); Item (SInt 2); Item (SInt 8)]])) /\
  take 2 <$> demo_location_rows =
    take 2 <$> [[Item (SInt 0); Item (SInt 1); Item (SInt 7)];
                [Item (SInt 1); Item (SInt 2); Item (SInt 8)]] /\
  @interpret_output _ demo_collaborators demo_batch_output
    (demo_connected false "linear_interpolation") =
  @interpret_output _ demo_collaborators demo_batch_output'
    (demo_connected false "linear_interpolation").
Proof.
  do 6 (split; [reflexivity | ]).
  exact (@interpret_output_ignores_other_columns
           _ demo_collaborators INTERPOLATE
           (demo_connected false "linear_interpolation")
           demo_batch_output demo_batch_output' "generated_image" 2
           demo_location_rows
           [[Item (SInt 0); Item (SInt 1); Item (SInt 7)];
            [Item (SInt 1); Item (SInt 2); Item (SInt 8)]]
           eq_refl eq_refl eq_refl eq_refl eq_refl eq_refl).
Defined.

(** X13 on the demo application in ENCODE mode before the graph is
    built. *)
Lemma interpret_output_missing_parts_witness :
  mode_of (is_training (self (demo_loaded false "encode")))
          (autoencoder_param (self (demo_loaded false "encode")))
    = Some ENCODE /\
  decode_plan ENCODE = Some ("embedded", Some 1%nat) /\
  let w := demo_loaded false "encode" in
  let r := @interpret_output _ demo_collaborators demo_batch_output w in
  (output_decoder (self w) = None ->
   r = (inl (AttributeError "decode_batch"), w)) /\
  (is_Some (output_decoder (self w)) ->
   demo_batch_output !! "embedded" = None ->
   r = (inl (KeyError "embedded"), w)) /\
  (is_Some (output_decoder (self w)) ->
   is_Some (demo_batch_output !! "embedded") ->
   is_Some (Some 1%nat) ->
   demo_batch_output !! "location" = None ->
   r = (inl (KeyError "location"), w)).
Proof.
  split; [reflexivity | ]. split; [reflexivity | ].
  exact (@interpret_output_missing_parts
           _ demo_collaborators ENCODE (demo_loaded false "encode")
           demo_batch_output "embedded" (Some 1%nat) eq_refl eq_refl).
Defined.

(** X15 on the demo application in INTERPOLATE mode. *)
Lemma sampler_over_the_fresh_reader_witness :
  mode_of (is_training (self (demo_world false)))
          (Some (demo_task_param "linear_interpolation")) = Some INTERPOLATE /\
  INTERPOLATE <> SAMPLE /\
  (INTERPOLATE = TRAIN ->
   is_range (scaling_percentage (action_param (self (demo_world false)))) &&
   is_range (rotation_angle (action_param (self (demo_world false))))
   = true) /\
  exists w1 w2 smp obj,
    initialise_dataset_loader
      (Some "data") (Some (demo_task_param "linear_interpolation"))
      (demo_world false) = (inr tt, w1) /\
    initialise_sampler w1 = (inr tt, w2) /\
    sampler (self w2) = Some [smp] /\
    sampler_reader smp = ReaderRef (length (heap (demo_world false))) /\
    reader (self w2) = ReaderRef (length (heap (demo_world false))) /\
    heap w2 !! length (heap (demo_world false)) = Some obj /\
    names obj = mode_channels INTERPOLATE /\
    calls obj !! 0%nat =
      Some (initialise_reader
              (Some "data") (Some (demo_task_param "linear_interpolation"))) /\
    length (calls obj) = 2%nat.
Proof.
  assert (H1 : INTERPOLATE <> SAMPLE) by discriminate.
  assert (H2 : INTERPOLATE = TRAIN ->
               is_range (scaling_percentage
                           (action_param (self (demo_world false)))) &&
               is_range (rotation_angle
                           (action_param (self (demo_world false))))
               = true) by (intros _; reflexivity).
  split; [reflexivity | ]. split; [exact H1 | ]. split; [exact H2 | ].
  exact (sampler_over_the_fresh_reader
           INTERPOLATE (demo_world false) (Some "data")
           (Some (demo_task_param "linear_interpolation")) eq_refl H1 H2).
Defined.

(** X16 on the demo application. *)
Lemma sample_run_witness :
  is_training (self (demo_world false)) = false /\
  inference_type (demo_task_param "sample") = "sample" /\
  outputs_collector (demo_world false) = Some [] /\
  net (self (initialise_network (demo_world false)).2) = Some demo_network /\
  last (@net_call _ demo_collaborators demo_network
          (Zeros [2; 4; 4; 4; 1]%nat) false)
    = Some (Produced "out7" [2; 3]%nat) /\
  demo_batch_output !! "generated_image" = Some (Arr [Item (SFloat 1%float)]) /\
  let noise := RandomNormal [2; 3]%nat 0%float 1%float float32 in
  let r := (let* _ := initialise_dataset_loader
                        (Some "data") (Some (demo_task_param "sample")) in
            @do_calls _ demo_collaborators
              [DoInitialiseSampler; DoInitialiseNetwork;
               DoConnectDataAndNetwork;
               DoInterpretOutput demo_batch_output]) (demo_world false) in
  r.1 = inr tt /\
  heap r.2 = heap (demo_world false) /\
  reader (self r.2) = PyEmptyTuple /\
  sampler (self r.2) = Some [] /\
  trace r.2 =
    trace (demo_world false) ++
    [CallNet (Zeros [2; 4; 4; 4; 1]%nat) false;
     CallRandomNormal [2; 3]%nat 1%float;
     CallSharedDecoder noise;
     CallDecoderMeans (Produced "shared_decoder" [2; 16]%nat);
     CallDecodeBatch (WindowAsImageAggregator PyNone "output")
                     (Arr [Item (SFloat 1%float)]) None].
Proof.
  do 6 (split; [reflexivity | ]).
  exact (@sample_run
           _ demo_collaborators (demo_world false) (Some "data")
           (demo_task_param "sample") [] demo_network
           (Produced "out7" [2; 3]%nat) demo_batch_output
           (Arr [Item (SFloat 1%float)])
           eq_refl eq_refl eq_refl eq_refl eq_refl eq_refl).
Defined.

(** X17 on the demo application in ENCODE mode. *)
Lemma encode_run_witness :
  is_training (self (demo_world false)) = false /\
  (ENCODE = ENCODE \/ ENCODE = ENCODE_DECODE) /\
  Some (inference_type (demo_task_param "encode")) = infer_type_of ENCODE /\
  outputs_collector (demo_world false) = Some [] /\
  net (self (initialise_network (demo_world false)).2) = Some demo_network /\
  @pop_batch_op _ demo_collaborators
    (ResizeSampler (ReaderRef 0) (Some "data") 2 1 false) None
    !! "image" = Some (Produced "image" [2; 4; 4; 4; 1]%nat) /\
  @pop_batch_op _ demo_collaborators
    (ResizeSampler (ReaderRef 0) (Some "data") 2 1 false) None
    !! "image_location" = Some (Produced "image_location" [2; 7]%nat) /\
  demo_net_output !! 7%nat = Some (Produced "out7" [2; 3]%nat) /\
  demo_batch_output !! "embedded" = Some (Arr [Item (SFloat 0.5%float)]) /\
  demo_batch_output !! "location" = Some (Arr (Arr <$> demo_location_rows)) /\
  let smp := ResizeSampler (ReaderRef 0) (Some "data") 2 1 false in
  let r := (let* _ := initialise_dataset_loader
                        (Some "data") (Some (demo_task_param "encode")) in
            @do_calls _ demo_collaborators
              [DoInitialiseSampler; DoInitialiseNetwork;
               DoConnectDataAndNetwork;
               DoInterpretOutput demo_batch_output]) (demo_world false) in
  r.1 = inr tt /\
  sampler (self r.2) = Some [smp] /\
  output_decoder (self r.2) =
    Some (WindowAsImageAggregator (ReaderRef 0) "output") /\
  outputs_collector r.2 =
    Some ([] ++ [console (Produced "image_location" [2; 7]%nat) "location";
                 console (Produced "out7" [2; 3]%nat) "embedded"]) /\
  trace r.2 =
    trace (demo_world false) ++
    [CallPopBatch smp None;
     CallNet (Cast (Produced "image" [2; 4; 4; 4; 1]%nat) float32) false;
     CallDecodeBatch
       (WindowAsImageAggregator (ReaderRef 0) "output")
       (Arr [Item (SFloat 0.5%float)])
       (Some (Arr ((fun row => Arr (take 1 row)) <$> demo_location_rows)))].
Proof.
  split; [reflexivity | ]. split; [left; reflexivity | ].
  do 8 (split; [reflexivity | ]).
  exact (@encode_run
           _ demo_collaborators ENCODE (demo_world false) (Some "data")
           (demo_task_param "encode") [] demo_network
           (Produced "image" [2; 4; 4; 4; 1]%nat)
           (Produced "image_location" [2; 7]%nat)
           (Produced "out7" [2; 3]%nat) demo_batch_output
           (Arr [Item (SFloat 0.5%float)]) demo_location_rows
           eq_refl (or_introl eq_refl) eq_refl eq_refl eq_refl eq_refl
           eq_refl eq_refl eq_refl eq_refl).
Defined.
